(** * llm-chat-app: the Worker's router, chat handler and Groq proxy

    A shallow embedding of [src/index.ts] (and the two interfaces of
    [src/types.ts]) together with the properties of its request
    handling.  The Worker's three functions, [fetch], [handleChatRequest]
    and [handleGroqProxy], are embedded as computations in a small monad
    that threads a log of the calls made to the outside world (the asset
    binding, the inference binding, the ambient network fetch and the
    console) and carries JavaScript exceptions. *)

From Stdlib Require Import Strings.Ascii Strings.String.
From Stdlib Require Import QArith.QArith_base.
From stdpp Require Import base option list strings gmap.

Local Open Scope string_scope.
Local Open Scope Z_scope.

(** ** JavaScript values that the handlers inspect *)

(** What [JSON.parse] can produce.  An object is a finite map from its
    own keys to values, as it is once parsing has resolved repeated
    keys. *)
#[local] Unset Elimination Schemes.
Inductive JSON : Type :=
| JNull
| JBool (b : bool)
| JNumber (x : Q)
| JString (s : string)
| JArray (items : list JSON)
| JObject (fields : gmap string JSON).
#[local] Set Elimination Schemes.

(** Errors that a handler can see thrown (or a promise rejected with). *)
Inductive JsError : Type :=
| TypeError (msg : string)
| SyntaxError (msg : string)
| OtherError (msg : string).

(** The outcome of evaluating an expression: a value or a throw. *)
Inductive Completion (A : Type) : Type :=
| Return (a : A)
| Throw (e : JsError).
Arguments Return {A} a.
Arguments Throw {A} e.

(** ** Platform objects: URL, Headers, Request, Response *)

(** The components of a parsed URL as the [URL] class exposes them:
    [protocol] ends in a colon, [port] is empty for the protocol's
    default port, [search] and [hash] carry their leading mark. *)
Record URL : Type := mkURL {
  protocol : string;
  username : string;
  password : string;
  hostname : string;
  port : string;
  pathname : string;
  search : string;
  hash : string
}.

(** The three setters [handleGroqProxy] uses.  The requests a Worker is
    handed have http or https URLs, on which assigning a valid host, the
    protocol of another such scheme, or the empty port replaces that one
    component. *)
Definition set_hostname (v : string) (u : URL) : URL :=
  mkURL (protocol u) (username u) (password u) v (port u)
        (pathname u) (search u) (hash u).

Definition set_protocol (v : string) (u : URL) : URL :=
  mkURL v (username u) (password u) (hostname u) (port u)
        (pathname u) (search u) (hash u).

Definition set_port (v : string) (u : URL) : URL :=
  mkURL (protocol u) (username u) (password u) (hostname u) v
        (pathname u) (search u) (hash u).

(** ASCII lower-casing: header names are matched case-insensitively. *)
Definition ascii_lower (c : ascii) : ascii :=
  let n := N_of_ascii c in
  if ((65 <=? n) && (n <=? 90))%N then ascii_of_N (n + 32) else c.

Fixpoint lower (s : string) : string :=
  match s with
  | EmptyString => EmptyString
  | String c r => String (ascii_lower c) (lower r)
  end.

(** HTTP whitespace: tab, line feed, carriage return and space. *)
Definition is_http_whitespace (c : ascii) : bool :=
  let n := N_of_ascii c in
  ((n =? 9) || (n =? 10) || (n =? 13) || (n =? 32))%N.

Fixpoint strip_leading (s : string) : string :=
  match s with
  | EmptyString => EmptyString
  | String c r => if is_http_whitespace c then strip_leading r else s
  end.

Fixpoint strip_trailing (s : string) : string :=
  match s with
  | EmptyString => EmptyString
  | String c r =>
      match strip_trailing r with
      | EmptyString =>
          if is_http_whitespace c then EmptyString else String c EmptyString
      | r' => String c r'
      end
  end.

(** A header value is normalized by removing the HTTP whitespace at its
    two ends. *)
Definition normalize_header_value (v : string) : string :=
  strip_trailing (strip_leading v).

(** A normalized value is a header value unless it holds a NUL, a line
    feed or a carriage return. *)
Fixpoint is_header_value (v : string) : bool :=
  match v with
  | EmptyString => true
  | String c r =>
      let n := N_of_ascii c in
      negb ((n =? 0) || (n =? 10) || (n =? 13))%N && is_header_value r
  end.

(** A header name is a non-empty token. *)
Definition is_tchar (c : ascii) : bool :=
  let n := N_of_ascii c in
  ((48 <=? n) && (n <=? 57) || (65 <=? n) && (n <=? 90)
   || (97 <=? n) && (n <=? 122)
   || existsb (N.eqb n) [33; 35; 36; 37; 38; 39; 42; 43; 45; 46; 94; 95; 96;
                         124; 126])%N.

Fixpoint all_tchars (s : string) : bool :=
  match s with
  | EmptyString => true
  | String c r => is_tchar c && all_tchars r
  end.

Definition is_header_name (s : string) : bool :=
  match s with
  | EmptyString => false
  | String _ _ => all_tchars s
  end.

(** A [Headers] object, seen through [get] and [set]: one (combined)
    value per lower-cased name. *)
Definition Headers_get (name : string) (h : gmap string string) : option string :=
  h !! lower name.

(** The header list's own set, on a name and a value already checked. *)
Definition Headers_store (name value : string) (h : gmap string string)
  : gmap string string :=
  <[lower name := value]> h.

(** [headers.set(name, value)]: the value is normalized, then name and
    value are checked, and a bad one is a [TypeError]. *)
Definition Headers_set (name value : string) (h : gmap string string)
  : Completion (gmap string string) :=
  let value := normalize_header_value value in
  if is_header_name name && is_header_value value
  then Return (Headers_store name value h)
  else Throw (TypeError "Invalid header name or value").

(** [new Headers(init)] from a [Headers] object: a copy of it. *)
Definition new_Headers (init : gmap string string) : gmap string string := init.

(** A body's bytes, whether still to be read from a stream or not. *)
Definition ReadableStream : Type := list Byte.byte.

Inductive BodyInit : Type :=
| BodyText (s : string)
| BodyStream (s : ReadableStream).

Record Request : Type := mkRequest {
  req_method : string;
  req_url : URL;
  req_headers : gmap string string;
  req_body : option ReadableStream
}.

Record Response : Type := mkResponse {
  status : Z;
  resp_headers : gmap string string;
  resp_body : option BodyInit
}.

Record ResponseInit : Type := mkResponseInit {
  init_status : option Z;
  init_headers : gmap string string
}.

(** [new Response(body, init)]: the status defaults to 200, and a text
    body brings its content type unless [init] names one. *)
Definition new_Response (body : option BodyInit) (init : ResponseInit) : Response :=
  let hs := init_headers init in
  let hs' :=
    match body with
    | Some (BodyText _) =>
        match Headers_get "content-type" hs with
        | Some _ => hs
        | None => Headers_store "content-type" "text/plain;charset=UTF-8" hs
        end
    | _ => hs
    end in
  mkResponse (default 200 (init_status init)) hs' body.

(** [new Request(url, { method, headers, body })], for a method name as
    a request holds it (in upper case): a [GET] or [HEAD] request cannot
    be given a body.  As in the Workers runtime, a stream is accepted as
    the body without further options. *)
Definition new_Request (u : URL) (m : string) (hs : gmap string string)
    (b : option ReadableStream) : Completion Request :=
  match b with
  | Some _ =>
      if (String.eqb m "GET" || String.eqb m "HEAD")%bool
      then Throw (TypeError "Request with a GET or HEAD method cannot have a body.")
      else Return (mkRequest m u hs b)
  | None => Return (mkRequest m u hs b)
  end.

(** [new URL(request.url)]: a request's URL is the serialisation of a
    parsed URL, which parsing gives back. *)
Definition new_URL (request : Request) : URL := req_url request.

(** ** The configuration bundle and the outside world *)

(** The argument of [env.AI.run] next to the model identifier. *)
Record AiInput : Type := mkAiInput {
  messages : JSON;
  max_tokens : Z;
  stream : bool
}.

(** [Env] of [types.ts]: the bindings are given by what they answer. *)
Record Env : Type := mkEnv {
  AI_run : string -> AiInput -> Completion ReadableStream;
  ASSETS_fetch : Request -> Completion Response;
  GROQ_API_KEY : option string
}.

(** What the runtime itself provides: decoding a body as JSON, and the
    ambient [fetch]. *)
Record Runtime : Type := mkRuntime {
  JSON_parse : ReadableStream -> Completion JSON;
  global_fetch : Request -> Completion Response
}.

(** The calls a handler makes to the outside, in the order made. *)
Inductive Event : Type :=
| EvAssetsFetch (request : Request)
| EvAiRun (model : string) (input : AiInput)
| EvFetch (request : Request)
| EvConsoleError (label : string) (error : JsError).

(** ** The monad of handlers: a log of events and exceptions *)

Definition M (A : Type) : Type := list Event -> Completion A * list Event.

Definition M_ret {A} (a : A) : M A := fun log => (Return a, log).

Definition M_bind {A B} (f : A -> M B) (m : M A) : M B :=
  fun log =>
    match m log with
    | (Return a, log') => f a log'
    | (Throw e, log') => (Throw e, log')
    end.

#[global] Instance M_mret : MRet M := @M_ret.
#[global] Instance M_mbind : MBind M := @M_bind.

(** An expression that completes without touching the outside. *)
Definition lift {A} (c : Completion A) : M A := fun log => (c, log).

(** An outside call: logged, then answered. *)
Definition perform {A} (ev : Event) (answer : Completion A) : M A :=
  fun log => (answer, (log ++ [ev])%list).

(** [try { body } catch (error) { handler }]. *)
Definition try_catch {A} (body : M A) (handler : JsError -> M A) : M A :=
  fun log =>
    match body log with
    | (Return a, log') => (Return a, log')
    | (Throw e, log') => handler e log'
    end.

Definition console_error (label : string) (error : JsError) : M unit :=
  perform (EvConsoleError label error) (Return tt).

(** Expressions that only compute compose in [Completion] itself. *)
#[global] Instance Completion_mret : MRet Completion := @Return.
#[global] Instance Completion_mbind : MBind Completion :=
  fun A B f c => match c with Return a => f a | Throw e => Throw e end.

(** ** Property access, destructuring and the array methods used *)

(** [v.key] for a parsed JSON value [v] and a key that no built-in
    prototype defines (the handler reads [messages] and [role]); [None]
    is [undefined].  Reading a property of [null] throws. *)
Definition get_property (key : string) (v : JSON) : Completion (option JSON) :=
  match v with
  | JNull =>
      Throw (TypeError ("Cannot read properties of null (reading '" +:+ key +:+ "')"))
  | JObject fields => Return (fields !! key)
  | _ => Return None
  end.

(** [const { messages = [] } = v]: the default applies to [undefined]
    only, so a [null] field stays [null]. *)
Definition destructure_messages (v : JSON) : Completion JSON :=
  match v with
  | JNull =>
      Throw (TypeError
               "Cannot destructure property 'messages' of '(intermediate value)' as it is null.")
  | _ =>
      o ← get_property "messages" v;
      mret (default (JArray []) o)
  end.

(** [x === s] for a string literal [s]. *)
Definition strict_eq_string (x : option JSON) (s : string) : bool :=
  match x with
  | Some (JString t) => String.eqb t s
  | _ => false
  end.

(** [Array.prototype.some]: stops at the first element the callback
    accepts; an exception of the callback ends the scan. *)
Fixpoint Array_some (cb : JSON -> Completion bool) (items : list JSON)
  : Completion bool :=
  match items with
  | [] => Return false
  | x :: rest =>
      match cb x with
      | Throw e => Throw e
      | Return true => Return true
      | Return false => Array_some cb rest
      end
  end.

(** [v.some(cb)]: only an array has the method. *)
Definition call_some (cb : JSON -> Completion bool) (v : JSON) : Completion bool :=
  match v with
  | JArray items => Array_some cb items
  | JNull => Throw (TypeError "Cannot read properties of null (reading 'some')")
  | _ => Throw (TypeError "messages.some is not a function")
  end.

(** [v.unshift(x)], giving the array as it is afterwards. *)
Definition call_unshift (x : JSON) (v : JSON) : Completion JSON :=
  match v with
  | JArray items => Return (JArray (x :: items))
  | JNull => Throw (TypeError "Cannot read properties of null (reading 'unshift')")
  | _ => Throw (TypeError "messages.unshift is not a function")
  end.

(** The object literal [{ role: r, content: c }]. *)
Definition message_object (r c : string) : JSON :=
  JObject (<["content" := JString c]> (<["role" := JString r]> ∅)).

(** A [Headers] built from the entries of an object literal (of the
    handlers' own, well-formed, names and values). *)
Definition Headers_of_entries (entries : list (string * string))
  : gmap string string :=
  foldl (fun h kv => Headers_store (fst kv) (snd kv) h) ∅ entries.

(** [JSON.stringify] on an object literal whose values are strings
    (none with control characters). *)
Definition dquote : string := String (ascii_of_nat 34) EmptyString.

Fixpoint JSON_escape (s : string) : string :=
  match s with
  | EmptyString => EmptyString
  | String c r =>
      if (Ascii.eqb c (ascii_of_nat 34) || Ascii.eqb c (ascii_of_nat 92))%bool
      then String (ascii_of_nat 92) (String c (JSON_escape r))
      else String c (JSON_escape r)
  end.

Definition JSON_quote (s : string) : string := dquote +:+ JSON_escape s +:+ dquote.

Definition JSON_stringify_entries (entries : list (string * string)) : string :=
  "{" +:+
  String.concat "," (map (fun kv => JSON_quote (fst kv) +:+ ":" +:+ JSON_quote (snd kv)) entries)
  +:+ "}".

(** Truthiness of a string: only the empty string is falsy. *)
Definition string_truthy (s : string) : bool :=
  match s with
  | EmptyString => false
  | String _ _ => true
  end.

(** ** index.ts *)

(** Model ID for Workers AI model *)
Definition MODEL_ID : string := "@cf/meta/llama-3.1-8b-instruct-fp8".

(** Default system prompt *)
Definition SYSTEM_PROMPT : string :=
  "You are a helpful, friendly assistant. Provide concise and accurate responses.".

(** The callback [(msg) => msg.role === "system"]. *)
Definition is_system (msg : JSON) : Completion bool :=
  role ← get_property "role" msg;
  mret (strict_eq_string role "system").

(** Handles chat API requests *)
Definition handleChatRequest (rt : Runtime) (request : Request) (env : Env)
  : M Response :=
  try_catch
    ((* Parse JSON request body *)
     body ← lift (JSON_parse rt (default [] (req_body request)));
     messages ← lift (destructure_messages body);
     (* Add system prompt if not present *)
     found ← lift (call_some is_system messages);
     messages ← (if negb found
                 then lift (call_unshift (message_object "system" SYSTEM_PROMPT) messages)
                 else mret messages);
     let input := mkAiInput messages 1024 true in
     stream ← perform (EvAiRun MODEL_ID input) (AI_run env MODEL_ID input);
     mret (new_Response (Some (BodyStream stream))
             (mkResponseInit None
                (Headers_of_entries
                   [("content-type", "text/event-stream; charset=utf-8");
                    ("cache-control", "no-cache");
                    ("connection", "keep-alive")]))))
    (fun error =>
       console_error "Error processing chat request:" error;;
       mret (new_Response
               (Some (BodyText (JSON_stringify_entries
                                  [("error", "Failed to process request")])))
               (mkResponseInit (Some 500)
                  (Headers_of_entries [("content-type", "application/json")])))).

(** Handles Groq API proxy requests (OpenAI compatible) *)
Definition handleGroqProxy (rt : Runtime) (request : Request) (env : Env)
  : M Response :=
  try_catch
    (let GROQ_API_HOST := "api.groq.com" in
     let oldUrl := new_URL request in
     (* Construct new URL pointing to Groq API *)
     let newUrl := new_URL request in
     let newUrl := set_hostname GROQ_API_HOST newUrl in
     let newUrl := set_protocol "https:" newUrl in
     let newUrl := set_port EmptyString newUrl in
     (* Build headers *)
     let headers := new_Headers (req_headers request) in
     headers ← lift (Headers_set "host" GROQ_API_HOST headers);
     (* Add authorization header if API key is configured *)
     headers ←
       match GROQ_API_KEY env with
       | Some key =>
           if string_truthy key
           then lift (Headers_set "authorization" ("Bearer " +:+ key) headers)
           else mret headers
       | None => mret headers
       end;
     modifiedRequest ←
       lift (new_Request newUrl (req_method request) headers (req_body request));
     perform (EvFetch modifiedRequest) (global_fetch rt modifiedRequest))
    (fun error =>
       console_error "Error proxying Groq request:" error;;
       mret (new_Response
               (Some (BodyText (JSON_stringify_entries
                                  [("error", "Failed to proxy request")])))
               (mkResponseInit (Some 500)
                  (Headers_of_entries [("content-type", "application/json")])))).

(** Main request handler for the Worker *)
Definition fetch (rt : Runtime) (request : Request) (env : Env) : M Response :=
  let url := new_URL request in
  (* Handle static assets (frontend) *)
  if (String.eqb (pathname url) "/" || negb (String.prefix "/api/" (pathname url)))%bool
  then perform (EvAssetsFetch request) (ASSETS_fetch env request)
  else
    (* API Routes *)
    if String.eqb (pathname url) "/api/chat"
    then
      (* Handle POST requests for chat *)
      if String.eqb (req_method request) "POST"
      then handleChatRequest rt request env
      else
        (* Method not allowed for other request types *)
        mret (new_Response (Some (BodyText "Method not allowed"))
                (mkResponseInit (Some 405) ∅))
    else
      (* Groq API Proxy - OpenAI compatible endpoint *)
      if String.prefix "/openai/v1/" (pathname url)
      then handleGroqProxy rt request env
      else
        (* Handle 404 for unmatched routes *)
        mret (new_Response (Some (BodyText "Not found"))
                (mkResponseInit (Some 404) ∅)).

(** ** types.ts: the shape the handler expects of a message *)

Inductive Role : Type := system | user | assistant.

Definition role_string (r : Role) : string :=
  match r with
  | system => "system"
  | user => "user"
  | assistant => "assistant"
  end.

Record ChatMessage : Type := mkChatMessage {
  role : Role;
  content : string
}.

(** A parsed JSON value has the shape of a given [ChatMessage]: an
    object whose [role] and [content] are the message's (further keys
    are not excluded by the interface). *)
Definition encodes (j : JSON) (m : ChatMessage) : Prop :=
  ∃ fields, j = JObject fields
    ∧ fields !! "role" = Some (JString (role_string (role m)))
    ∧ fields !! "content" = Some (JString (content m)).

Definition has_system_role (m : ChatMessage) : bool :=
  match role m with
  | system => true
  | _ => false
  end.

(** A value is an object whose [role] is the string [system]. *)
Definition is_system_message (msg : JSON) : bool :=
  match msg with
  | JObject fields => strict_eq_string (fields !! "role") "system"
  | _ => false
  end.

(** A value is an array with such an element. *)
Definition has_system_message (v : JSON) : bool :=
  match v with
  | JArray items => existsb is_system_message items
  | _ => false
  end.

(** ** Sample values *)

Definition sample_url (path : string) : URL :=
  mkURL "https:" EmptyString EmptyString "chat.example.com" EmptyString
        path EmptyString EmptyString.

Definition sample_request (method path : string) : Request :=
  mkRequest method (sample_url path) ∅ None.

Definition index_page : Response :=
  mkResponse 200 ∅ (Some (BodyText "<!doctype html>")).

Definition upstream_reply : Response :=
  mkResponse 200 ∅ (Some (BodyText "{}")).

(** An environment without a proxy credential whose bindings answer. *)
Definition sample_env : Env :=
  mkEnv (fun _ _ => Return []) (fun _ => Return index_page) None.

(** A runtime whose network answers and whose bodies are not JSON. *)
Definition sample_rt : Runtime :=
  mkRuntime (fun _ => Throw (SyntaxError "Unexpected end of JSON input"))
            (fun _ => Return upstream_reply).

(** ** The handlers' outcomes in closed form *)

(** The value bound to [messages] when control reaches the inference
    call: the destructuring, the scan and the insertion of
    [handleChatRequest] as one expression. *)
Definition amended_messages (body : JSON) : Completion JSON :=
  msgs ← destructure_messages body;
  found ← call_some is_system msgs;
  if negb found
  then call_unshift (message_object "system" SYSTEM_PROMPT) msgs
  else mret msgs.

(** The response of the chat handler's [catch] block. *)
Definition chat_failure_response : Response :=
  new_Response
    (Some (BodyText (JSON_stringify_entries [("error", "Failed to process request")])))
    (mkResponseInit (Some 500) (Headers_of_entries [("content-type", "application/json")])).

(** The response the chat handler wraps around the inference stream. *)
Definition chat_stream_response (s : ReadableStream) : Response :=
  new_Response (Some (BodyStream s))
    (mkResponseInit None
       (Headers_of_entries
          [("content-type", "text/event-stream; charset=utf-8");
           ("cache-control", "no-cache");
           ("connection", "keep-alive")])).

(** The response of the proxy's [catch] block. *)
Definition proxy_failure_response : Response :=
  new_Response
    (Some (BodyText (JSON_stringify_entries [("error", "Failed to proxy request")])))
    (mkResponseInit (Some 500) (Headers_of_entries [("content-type", "application/json")])).

(** The URL [handleGroqProxy] computes for the outbound request: the
    three assignments to [newUrl]. *)
Definition outbound_url (request : Request) : URL :=
  set_port EmptyString
    (set_protocol "https:" (set_hostname "api.groq.com" (new_URL request))).

(** The headers [handleGroqProxy] builds for the outbound request: the
    copy and the one or two calls of [set]. *)
Definition outbound_headers (request : Request) (env : Env)
  : Completion (gmap string string) :=
  headers ← Headers_set "host" "api.groq.com" (new_Headers (req_headers request));
  match GROQ_API_KEY env with
  | Some key =>
      if string_truthy key
      then Headers_set "authorization" ("Bearer " +:+ key) headers
      else mret headers
  | None => mret headers
  end.

(** The configured credential, if there is one, makes a header value. *)
Definition credential_usable (env : Env) : bool :=
  match GROQ_API_KEY env with
  | Some key =>
      negb (string_truthy key)
      || is_header_value (normalize_header_value ("Bearer " +:+ key))
  | None => true
  end.

(** The request's method admits the body it has. *)
Definition body_allowed (request : Request) : bool :=
  match req_body request with
  | Some _ =>
      negb (String.eqb (req_method request) "GET"
            || String.eqb (req_method request) "HEAD")
  | None => true
  end.

(** The proxy gets as far as sending the request out. *)
Definition proxy_sendable (request : Request) (env : Env) : bool :=
  credential_usable env && body_allowed request.



(** A credential with a line feed inside. *)
Definition broken_credential : string :=
  "gsk" +:+ String (ascii_of_nat 10) "live".

(** A runtime that decodes every body as a given value. *)
Definition rt_parsing (body : JSON) : Runtime :=
  mkRuntime (fun _ => Return body) (fun _ => Return upstream_reply).

(** A runtime whose network is unreachable. *)
Definition rt_offline : Runtime :=
  mkRuntime (fun _ => Throw (SyntaxError "Unexpected end of JSON input"))
            (fun _ => Throw (TypeError "fetch failed")).

(** An environment whose inference binding fails. *)
Definition env_ai_down : Env :=
  mkEnv (fun _ _ => Throw (OtherError "inference unavailable"))
        (fun _ => Return index_page) None.

(** An environment with a proxy credential. *)
Definition env_with_key (key : string) : Env :=
  mkEnv (fun _ _ => Return []) (fun _ => Return index_page) (Some key).

Definition hello : ChatMessage := mkChatMessage user "Hello".

Definition hello_json : JSON := message_object "user" "Hello".

(** The body [{ messages: [...] }]. *)
Definition chat_body (items : list JSON) : JSON :=
  JObject (<["messages" := JArray items]> ∅).

(** The text of the object with the one key [error] and a message
    (without characters to escape) as its value. *)
Definition error_json_text (msg : string) : string :=
  "{" +:+ dquote +:+ "error" +:+ dquote +:+ ":" +:+ dquote +:+ msg +:+ dquote +:+ "}".

(** ** Further vocabulary for the handlers' edge behaviour *)

(** The scan of [handleChatRequest] gets through an array: it meets a
    system message before it meets a [null], or neither. *)
Fixpoint scannable (items : list JSON) : bool :=
  match items with
  | [] => true
  | JNull :: _ => false
  | x :: rest => is_system_message x || scannable rest
  end.

(** An environment whose asset binding fails. *)
Definition env_assets_down : Env :=
  mkEnv (fun _ _ => Return []) (fun _ => Throw (OtherError "asset not available")) None.

(** The body with [messages] bound to an arbitrary value. *)
Definition body_with_messages (v : JSON) : JSON :=
  JObject (<["messages" := v]> ∅).

(** An event of one kind is not in a short log of events of others. *)
Ltac absent_from_log :=
  let Hin := fresh "Hin" in
  intros Hin;
  repeat (apply elem_of_cons in Hin as [Hin|Hin]; [discriminate Hin|]);
  by apply not_elem_of_nil in Hin.

(** * Properties *)

(** ** The router *)

Section Router.
Variables (rt : Runtime) (env : Env).

(** A path under [/openai/v1/] is not under [/api/]. *)
Lemma openai_path_not_api (path : string) :
  String.prefix "/openai/v1/" path = true →
  String.prefix "/api/" path = false.
Proof.
  destruct path as [|c1 [|c2 rest]]; cbn [String.prefix]; intros H.
  - discriminate H.
  - destruct (ascii_dec "/" c1); discriminate H.
  - destruct (ascii_dec "/" c1) as [<-|]; [|discriminate H].
    destruct (ascii_dec "o" c2) as [<-|]; [|discriminate H].
    destruct (ascii_dec "/" "/"); [|reflexivity].
    destruct (ascii_dec "a" "o") as [Hao|]; [discriminate Hao|reflexivity].
Qed.

Lemma fetch_assets_branch (request : Request) (log : list Event) :
  pathname (req_url request) = "/"
  ∨ String.prefix "/api/" (pathname (req_url request)) = false →
  fetch rt request env log
  = (ASSETS_fetch env request, (log ++ [EvAssetsFetch request])%list).
Proof.
  intros H. unfold fetch, new_URL.
  destruct H as [-> | ->]; reflexivity || (by rewrite orb_true_r).
Qed.

(** Whatever the request, the router makes one of four moves; handing
    the request to [handleGroqProxy] is not among them. *)
Lemma fetch_cases (request : Request) (log : list Event) :
  fetch rt request env log
    = (ASSETS_fetch env request, (log ++ [EvAssetsFetch request])%list)
  ∨ fetch rt request env log = handleChatRequest rt request env log
  ∨ fetch rt request env log
    = (Return (new_Response (Some (BodyText "Method not allowed"))
                 (mkResponseInit (Some 405) ∅)), log)
  ∨ fetch rt request env log
    = (Return (new_Response (Some (BodyText "Not found"))
                 (mkResponseInit (Some 404) ∅)), log).
Proof.
  destruct (String.prefix "/api/" (pathname (req_url request))) eqn:Hapi.
  - unfold fetch, new_URL. rewrite Hapi.
    destruct (String.eqb (pathname (req_url request)) "/") eqn:Hroot.
    + apply String.eqb_eq in Hroot. rewrite Hroot in Hapi. discriminate.
    + simpl.
      destruct (String.eqb (pathname (req_url request)) "/api/chat").
      * destruct (String.eqb (req_method request) "POST"); auto.
      * destruct (String.prefix "/openai/v1/" (pathname (req_url request)))
          eqn:Hopenai; [|auto 10].
        apply openai_path_not_api in Hopenai. congruence.
  - left. apply fetch_assets_branch. by right.
Qed.
End Router.

(** C1 (as the code has it): a request whose path starts with
    [/openai/v1/], whatever its method, is handed to the static-asset
    binding; the router's proxy branch comes after the asset branch,
    which has already taken every path outside [/api/]. *)
Theorem openai_request_served_by_assets
    (rt : Runtime) (env : Env) (request : Request) (log : list Event) :
  String.prefix "/openai/v1/" (pathname (req_url request)) = true →
  fetch rt request env log
  = (ASSETS_fetch env request, (log ++ [EvAssetsFetch request])%list).
Proof.
  intros H. apply fetch_assets_branch. right. by apply openai_path_not_api.
Qed.

Lemma openai_request_served_by_assets_witness :
  String.prefix "/openai/v1/"
    (pathname (req_url (sample_request "POST" "/openai/v1/chat/completions")))
  = true
  ∧ fetch sample_rt (sample_request "POST" "/openai/v1/chat/completions")
      sample_env []
    = (Return index_page,
       [EvAssetsFetch (sample_request "POST" "/openai/v1/chat/completions")]).
Proof.
  split; [reflexivity|].
  apply (openai_request_served_by_assets sample_rt sample_env
           (sample_request "POST" "/openai/v1/chat/completions") []).
  reflexivity.
Defined.

(** C2: a request whose path is [/] or does not start with [/api/] is
    handed, as it came, to the static-asset binding's [fetch]; that is
    the only call made, and its outcome (a response or an error) is the
    router's, whatever the method and the body. *)
Theorem non_api_request_delegated_to_assets
    (rt : Runtime) (env : Env) (request : Request) (log : list Event) :
  pathname (req_url request) = "/"
  ∨ String.prefix "/api/" (pathname (req_url request)) = false →
  fetch rt request env log
  = (ASSETS_fetch env request, (log ++ [EvAssetsFetch request])%list).
Proof. apply fetch_assets_branch. Qed.

Lemma non_api_request_delegated_to_assets_witness :
  (pathname (req_url (sample_request "DELETE" "/styles/app.css")) = "/"
   ∨ String.prefix "/api/"
       (pathname (req_url (sample_request "DELETE" "/styles/app.css"))) = false)
  ∧ fetch sample_rt (sample_request "DELETE" "/styles/app.css") sample_env []
    = (Return index_page,
       [EvAssetsFetch (sample_request "DELETE" "/styles/app.css")]).
Proof.
  split; [right; reflexivity|].
  apply (non_api_request_delegated_to_assets sample_rt sample_env
           (sample_request "DELETE" "/styles/app.css") []).
  right. reflexivity.
Defined.

(** C3, refuted as stated: [GET /unknown/path] is answered by the
    static-asset binding, here with its 200 page, not with 404. *)
Lemma unknown_path_is_not_404 :
  ¬ ∃ resp,
      (fetch sample_rt (sample_request "GET" "/unknown/path") sample_env []).1
      = Return resp
      ∧ status resp = 404
      ∧ resp_body resp = Some (BodyText "Not found").
Proof.
  intros (resp & Hresp & Hstatus & _).
  cbv in Hresp. injection Hresp as <-. discriminate Hstatus.
Qed.

(** C3 (amended): a request, of any method, whose path starts with
    [/api/] and is not [/api/chat] is answered with status 404 and body
    [Not found], and nothing outside is called. *)
Theorem unmatched_api_path_not_found
    (rt : Runtime) (env : Env) (request : Request) (log : list Event) :
  String.prefix "/api/" (pathname (req_url request)) = true →
  pathname (req_url request) ≠ "/api/chat" →
  ∃ resp,
    fetch rt request env log = (Return resp, log)
    ∧ status resp = 404
    ∧ resp_body resp = Some (BodyText "Not found").
Proof.
  intros Hapi Hchat.
  exists (new_Response (Some (BodyText "Not found")) (mkResponseInit (Some 404) ∅)).
  split; [|split; reflexivity].
  unfold fetch, new_URL. rewrite Hapi.
  destruct (String.eqb (pathname (req_url request)) "/") eqn:Hroot.
  { apply String.eqb_eq in Hroot. rewrite Hroot in Hapi. discriminate. }
  apply String.eqb_neq in Hchat. rewrite Hchat. simpl.
  destruct (String.prefix "/openai/v1/" (pathname (req_url request))) eqn:Ho.
  { apply openai_path_not_api in Ho. congruence. }
  reflexivity.
Qed.

Lemma unmatched_api_path_not_found_witness :
  ∃ resp,
    fetch sample_rt (sample_request "GET" "/api/unknown") sample_env []
    = (Return resp, [])
    ∧ status resp = 404
    ∧ resp_body resp = Some (BodyText "Not found").
Proof.
  apply (unmatched_api_path_not_found sample_rt sample_env
           (sample_request "GET" "/api/unknown") []).
  - reflexivity.
  - discriminate.
Defined.

(** ** The chat handler *)

Section Chat.
Variables (rt : Runtime) (env : Env).

(** The handler, step by step: what it returns and what it logs. *)
Lemma handleChatRequest_steps (request : Request) (log : list Event) :
  handleChatRequest rt request env log =
  let failed e l :=
    (Return chat_failure_response,
     (l ++ [EvConsoleError "Error processing chat request:" e])%list) in
  match JSON_parse rt (default [] (req_body request)) with
  | Throw e => failed e log
  | Return body =>
      match amended_messages body with
      | Throw e => failed e log
      | Return msgs =>
          let call := EvAiRun MODEL_ID (mkAiInput msgs 1024 true) in
          match AI_run env MODEL_ID (mkAiInput msgs 1024 true) with
          | Throw e => failed e (log ++ [call])%list
          | Return s => (Return (chat_stream_response s), (log ++ [call])%list)
          end
      end
  end.
Proof.
  unfold handleChatRequest, amended_messages, try_catch, lift, perform,
    console_error, mbind, mret, M_mbind, M_bind, M_mret, M_ret,
    Completion_mbind, Completion_mret.
  destruct (JSON_parse rt _) as [body|e]; [|reflexivity].
  destruct (destructure_messages body) as [msgs|e]; [|reflexivity].
  destruct (call_some is_system msgs) as [[|]|e]; [| |reflexivity]; simpl.
  - destruct (AI_run env MODEL_ID _); reflexivity.
  - destruct (call_unshift _ msgs) as [msgs'|e]; [|reflexivity].
    destruct (AI_run env MODEL_ID _); reflexivity.
Qed.
End Chat.

(** *** The scan for a system message *)

Lemma is_system_returns (msg : JSON) (b : bool) :
  is_system msg = Return b → b = is_system_message msg.
Proof.
  destruct msg; cbv [is_system get_property mbind mret Completion_mbind
                     Completion_mret is_system_message];
    intros H; by inversion H.
Qed.

Lemma Array_some_returns (items : list JSON) (b : bool) :
  Array_some is_system items = Return b → b = existsb is_system_message items.
Proof.
  induction items as [|x items IH]; simpl.
  - intros H. by inversion H.
  - destruct (is_system x) as [[|]|e] eqn:Hx; intros H.
    + apply is_system_returns in Hx as <-. by inversion H.
    + apply is_system_returns in Hx as <-. by apply IH.
    + discriminate H.
Qed.

Lemma role_string_is_system (r : Role) :
  String.eqb (role_string r) "system"
  = match r with system => true | _ => false end.
Proof. by destruct r. Qed.

Lemma is_system_encoded (j : JSON) (m : ChatMessage) :
  encodes j m → is_system j = Return (has_system_role m).
Proof.
  intros (fields & -> & Hrole & _).
  cbv [is_system get_property mbind mret Completion_mbind Completion_mret].
  rewrite Hrole. unfold strict_eq_string, has_system_role.
  by rewrite role_string_is_system.
Qed.

Lemma Array_some_encoded (arr : list JSON) (ms : list ChatMessage) :
  Forall2 encodes arr ms →
  Array_some is_system arr = Return (existsb has_system_role ms).
Proof.
  induction 1 as [|j m arr ms Hjm _ IH]; simpl; [done|].
  rewrite (is_system_encoded j m Hjm).
  by destruct (has_system_role m).
Qed.

Lemma default_prompt_encoded :
  encodes (message_object "system" SYSTEM_PROMPT)
          (mkChatMessage system SYSTEM_PROMPT).
Proof. eexists. split; [reflexivity|]. split; reflexivity. Qed.

(** *** The value handed to the inference call *)

Lemma destructure_messages_get (body : JSON) (o : option JSON) :
  get_property "messages" body = Return o →
  destructure_messages body = Return (default (JArray []) o).
Proof.
  destruct body; intros H; try discriminate H;
    cbv [destructure_messages mbind mret Completion_mbind Completion_mret];
    by rewrite H.
Qed.

Lemma amended_messages_has_system (body msgs : JSON) :
  amended_messages body = Return msgs → has_system_message msgs = true.
Proof.
  cbv [amended_messages mbind mret Completion_mbind Completion_mret].
  destruct (destructure_messages body) as [v|e]; [|discriminate].
  destruct v as [| | | |items|]; try discriminate. simpl.
  destruct (Array_some is_system items) as [[|]|e] eqn:Hscan;
    simpl; intros H; inversion H; subst; simpl.
  - symmetry. by apply Array_some_returns.
  - reflexivity.
Qed.

Lemma amended_messages_of_array (body : JSON) (arr : list JSON)
    (ms : list ChatMessage) :
  get_property "messages" body = Return (Some (JArray arr)) →
  Forall2 encodes arr ms →
  amended_messages body
  = Return (JArray (if existsb has_system_role ms then arr
                    else message_object "system" SYSTEM_PROMPT :: arr)).
Proof.
  intros Hget Henc. unfold amended_messages.
  rewrite (destructure_messages_get body _ Hget).
  cbv [mbind mret Completion_mbind Completion_mret].
  simpl. rewrite (Array_some_encoded arr ms Henc).
  by destruct (existsb has_system_role ms).
Qed.

Lemma amended_messages_of_nothing (body : JSON) :
  get_property "messages" body = Return None
  ∨ get_property "messages" body = Return (Some (JArray [])) →
  amended_messages body
  = Return (JArray [message_object "system" SYSTEM_PROMPT]).
Proof.
  unfold amended_messages.
  by intros [H|H]; rewrite (destructure_messages_get body _ H).
Qed.

(** After the inference call the handler calls the console at most. *)
Lemma no_inference_call_in (e : option JsError) (model : string)
    (input : AiInput) :
  EvAiRun model input
  ∉ match e with
    | Some e => [EvConsoleError "Error processing chat request:" e]
    | None => []
    end.
Proof.
  destruct e; [|apply not_elem_of_nil].
  intros H. apply list_elem_of_singleton in H. discriminate H.
Qed.

(** Once the body is parsed and the messages are settled, the handler
    makes exactly one inference call, with those messages. *)
Lemma handleChatRequest_forwards (rt : Runtime) (env : Env)
    (request : Request) (log : list Event) (body msgs : JSON) :
  JSON_parse rt (default [] (req_body request)) = Return body →
  amended_messages body = Return msgs →
  ∃ resp tail,
    handleChatRequest rt request env log
    = (Return resp,
       (log ++ EvAiRun MODEL_ID (mkAiInput msgs 1024 true) :: tail)%list)
    ∧ ∀ model input, EvAiRun model input ∉ tail.
Proof.
  intros Hparse Hmsgs.
  rewrite handleChatRequest_steps, Hparse, Hmsgs. cbv zeta.
  destruct (AI_run env MODEL_ID _) as [s|e].
  - exists (chat_stream_response s), []. split; [done|].
    intros model input. apply (no_inference_call_in None).
  - exists chat_failure_response,
      [EvConsoleError "Error processing chat request:" e].
    split; [by rewrite <- app_assoc|].
    intros model input. apply (no_inference_call_in (Some e)).
Qed.

(** C4: for a parsed conversation (an array [arr] of values shaped as
    the messages [ms]), the handler makes one inference call.  If no
    message has role [system], the call receives the default system
    message, with content exactly [SYSTEM_PROMPT], followed by the
    original messages in their order; if some message, anywhere, has
    role [system], it receives the original array unchanged. *)
Theorem system_prompt_inserted_when_absent
    (rt : Runtime) (env : Env) (request : Request) (log : list Event)
    (body : JSON) (arr : list JSON) (ms : list ChatMessage) :
  JSON_parse rt (default [] (req_body request)) = Return body →
  get_property "messages" body = Return (Some (JArray arr)) →
  Forall2 encodes arr ms →
  let forwarded :=
    if existsb has_system_role ms then arr
    else message_object "system" SYSTEM_PROMPT :: arr in
  let conversation :=
    if existsb has_system_role ms then ms
    else mkChatMessage system SYSTEM_PROMPT :: ms in
  Forall2 encodes forwarded conversation
  ∧ ∃ resp tail,
      handleChatRequest rt request env log
      = (Return resp,
         (log ++ EvAiRun MODEL_ID (mkAiInput (JArray forwarded) 1024 true)
              :: tail)%list)
      ∧ ∀ model input, EvAiRun model input ∉ tail.
Proof.
  intros Hparse Hget Henc. cbv zeta. split.
  - destruct (existsb has_system_role ms); [done|].
    constructor; [apply default_prompt_encoded | done].
  - apply (handleChatRequest_forwards rt env request log body); [done|].
    by apply (amended_messages_of_array body arr ms).
Qed.

Lemma system_prompt_inserted_when_absent_witness :
  Forall2 encodes [message_object "system" SYSTEM_PROMPT; hello_json]
                  [mkChatMessage system SYSTEM_PROMPT; hello]
  ∧ ∃ resp tail,
      handleChatRequest (rt_parsing (chat_body [hello_json]))
        (sample_request "POST" "/api/chat") sample_env []
      = (Return resp,
         ([] ++ EvAiRun MODEL_ID
                  (mkAiInput
                     (JArray [message_object "system" SYSTEM_PROMPT; hello_json])
                     1024 true)
             :: tail)%list)
      ∧ ∀ model input, EvAiRun model input ∉ tail.
Proof.
  apply (system_prompt_inserted_when_absent
           (rt_parsing (chat_body [hello_json]))
           sample_env (sample_request "POST" "/api/chat") []
           (chat_body [hello_json]) [hello_json] [hello]).
  - reflexivity.
  - reflexivity.
  - constructor; [|constructor].
    exists (<["content" := JString "Hello"]> (<["role" := JString "user"]> ∅)).
    split; [reflexivity|]. split; reflexivity.
Defined.

(** C10: when the body parses, every inference call the handler makes
    carries an array with an element of role [system]; a conversation of
    well-formed messages does reach the inference call; and with no
    [messages] field, or an empty one, the one call made receives
    exactly the default system message. *)
Theorem inference_receives_system_message
    (rt : Runtime) (env : Env) (request : Request) (log : list Event)
    (body : JSON) :
  JSON_parse rt (default [] (req_body request)) = Return body →
  ∃ resp new,
    handleChatRequest rt request env log = (Return resp, (log ++ new)%list)
    ∧ (∀ model input,
         EvAiRun model input ∈ new →
         has_system_message (messages input) = true)
    ∧ (∀ arr ms,
         get_property "messages" body = Return (Some (JArray arr)) →
         Forall2 encodes arr ms →
         ∃ input, EvAiRun MODEL_ID input ∈ new)
    ∧ (get_property "messages" body = Return None
       ∨ get_property "messages" body = Return (Some (JArray [])) →
       ∃ tail,
         new = EvAiRun MODEL_ID
                 (mkAiInput (JArray [message_object "system" SYSTEM_PROMPT])
                    1024 true) :: tail
         ∧ ∀ model input, EvAiRun model input ∉ tail).
Proof.
  intros Hparse.
  destruct (amended_messages body) as [msgs|e] eqn:Hmsgs.
  - destruct (handleChatRequest_forwards rt env request log body msgs
                Hparse Hmsgs) as (resp & tail & Hrun & Htail).
    exists resp, (EvAiRun MODEL_ID (mkAiInput msgs 1024 true) :: tail).
    split; [done|]. split; [|split].
    + intros model input [Heq|Hin]%elem_of_cons.
      * inversion Heq; subst. simpl.
        by apply (amended_messages_has_system body).
      * by apply Htail in Hin.
    + intros arr ms _ _. eexists. apply list_elem_of_here.
    + intros Hnone. exists tail. split; [|done].
      apply amended_messages_of_nothing in Hnone. congruence.
  - exists chat_failure_response,
      [EvConsoleError "Error processing chat request:" e].
    split; [by rewrite handleChatRequest_steps, Hparse, Hmsgs|].
    split; [|split].
    + intros model input Hin. by apply (no_inference_call_in (Some e)) in Hin.
    + intros arr ms Hget Henc.
      rewrite (amended_messages_of_array body arr ms Hget Henc) in Hmsgs.
      discriminate Hmsgs.
    + intros Hnone. apply amended_messages_of_nothing in Hnone. congruence.
Qed.

Lemma inference_receives_system_message_witness :
  JSON_parse (rt_parsing (JObject ∅))
    (default [] (req_body (sample_request "POST" "/api/chat")))
  = Return (JObject ∅)
  ∧ ∃ resp new,
      handleChatRequest (rt_parsing (JObject ∅))
        (sample_request "POST" "/api/chat") sample_env []
      = (Return resp, ([] ++ new)%list)
      ∧ (∀ model input,
           EvAiRun model input ∈ new →
           has_system_message (messages input) = true)
      ∧ (∀ arr ms,
           get_property "messages" (JObject ∅) = Return (Some (JArray arr)) →
           Forall2 encodes arr ms →
           ∃ input, EvAiRun MODEL_ID input ∈ new)
      ∧ (get_property "messages" (JObject ∅) = Return None
         ∨ get_property "messages" (JObject ∅) = Return (Some (JArray [])) →
         ∃ tail,
           new = EvAiRun MODEL_ID
                   (mkAiInput (JArray [message_object "system" SYSTEM_PROMPT])
                      1024 true) :: tail
           ∧ ∀ model input, EvAiRun model input ∉ tail).
Proof.
  split; [reflexivity|].
  apply (inference_receives_system_message (rt_parsing (JObject ∅)) sample_env
           (sample_request "POST" "/api/chat") [] (JObject ∅)).
  reflexivity.
Defined.

(** C6: the chat handler always returns a response, never an exception;
    and when parsing the body, settling the messages or the inference
    call throws, that response is the one with status 500, content type
    [application/json] and the JSON text of [error] bound to
    [Failed to process request], the error having been logged. *)
Theorem chat_handler_catches_every_error
    (rt : Runtime) (env : Env) (request : Request) (log : list Event) :
  (∃ resp log',
     handleChatRequest rt request env log = (Return resp, log')
     ∧ ∀ e,
         JSON_parse rt (default [] (req_body request)) = Throw e
         ∨ (∃ body,
              JSON_parse rt (default [] (req_body request)) = Return body
              ∧ amended_messages body = Throw e)
         ∨ (∃ body msgs,
              JSON_parse rt (default [] (req_body request)) = Return body
              ∧ amended_messages body = Return msgs
              ∧ AI_run env MODEL_ID (mkAiInput msgs 1024 true) = Throw e) →
         resp = chat_failure_response
         ∧ EvConsoleError "Error processing chat request:" e ∈ log')
  ∧ status chat_failure_response = 500
  ∧ resp_body chat_failure_response
    = Some (BodyText (error_json_text "Failed to process request"))
  ∧ Headers_get "Content-Type" (resp_headers chat_failure_response)
    = Some "application/json".
Proof.
  split; [|by repeat split].
  rewrite handleChatRequest_steps. cbv zeta.
  destruct (JSON_parse rt _) as [body|e0] eqn:Hparse.
  - destruct (amended_messages body) as [msgs|e0] eqn:Hmsgs.
    + destruct (AI_run env MODEL_ID _) as [s|e0] eqn:Hrun;
        eexists _, _; (split; [reflexivity|]);
        intros e [H|[(b & H & H')|(b & m & H & H' & H'')]];
        simplify_eq; try congruence.
      assert (e = e0) as -> by congruence.
      split; [done|]. apply elem_of_app. right. by apply list_elem_of_singleton.
    + eexists _, _. split; [reflexivity|].
      intros e [H|[(b & H & H')|(b & m & H & H' & H'')]];
        simplify_eq; try congruence.
      assert (e = e0) as -> by congruence.
      split; [done|]. apply elem_of_app. right. by apply list_elem_of_singleton.
  - eexists _, _. split; [reflexivity|].
    intros e [H|[(b & H & H')|(b & m & H & H' & H'')]]; simplify_eq.
    split; [done|]. apply elem_of_app. right. by apply list_elem_of_singleton.
Qed.

(** [POST /api/chat] with a body that is not JSON. *)
Example invalid_json_is_500 :
  handleChatRequest sample_rt (sample_request "POST" "/api/chat") sample_env []
  = (Return chat_failure_response,
     [EvConsoleError "Error processing chat request:"
        (SyntaxError "Unexpected end of JSON input")]).
Proof. reflexivity. Qed.

(** A [null] among the messages, met before any system message, ends
    the scan with an exception, and the request with the 500 response. *)
Example null_message_is_500 :
  handleChatRequest (rt_parsing (chat_body [JNull; hello_json]))
    (sample_request "POST" "/api/chat") sample_env []
  = (Return chat_failure_response,
     [EvConsoleError "Error processing chat request:"
        (TypeError "Cannot read properties of null (reading 'role')")]).
Proof. reflexivity. Qed.

(** ** The proxy *)

(** *** Header values *)





(** *** The steps of the handler *)

Lemma Headers_set_host (h : gmap string string) :
  Headers_set "host" "api.groq.com" h
  = Return (<["host" := "api.groq.com"]> h).
Proof. reflexivity. Qed.

Lemma Headers_set_authorization (value : string) (h : gmap string string) :
  Headers_set "authorization" value h
  = if is_header_value (normalize_header_value value)
    then Return (<["authorization" := normalize_header_value value]> h)
    else Throw (TypeError "Invalid header name or value").
Proof. reflexivity. Qed.

(** The headers built, or the reason there are none. *)
Lemma outbound_headers_outcome (request : Request) (env : Env) :
  outbound_headers request env
  = if credential_usable env
    then Return
           match GROQ_API_KEY env with
           | Some key =>
               if string_truthy key
               then <["authorization" :=
                        normalize_header_value ("Bearer " +:+ key)]>
                      (<["host" := "api.groq.com"]> (req_headers request))
               else <["host" := "api.groq.com"]> (req_headers request)
           | None => <["host" := "api.groq.com"]> (req_headers request)
           end
    else Throw (TypeError "Invalid header name or value").
Proof.
  unfold outbound_headers, credential_usable, new_Headers.
  rewrite Headers_set_host.
  cbv [mbind mret Completion_mbind Completion_mret].
  destruct (GROQ_API_KEY env) as [key|]; [|done].
  destruct (string_truthy key); [|done].
  rewrite Headers_set_authorization. cbn [negb orb].
  by destruct (is_header_value _).
Qed.

Lemma new_Request_outcome (request : Request) (u : URL)
    (hs : gmap string string) :
  new_Request u (req_method request) hs (req_body request)
  = if body_allowed request
    then Return (mkRequest (req_method request) u hs (req_body request))
    else Throw (TypeError "Request with a GET or HEAD method cannot have a body.").
Proof.
  unfold new_Request, body_allowed.
  destruct (req_body request); [|done].
  by destruct (String.eqb (req_method request) "GET"
               || String.eqb (req_method request) "HEAD")%bool.
Qed.

Section Proxy.
Variables (rt : Runtime) (env : Env).

(** The handler, step by step: what it returns and what it logs. *)
Lemma handleGroqProxy_steps (request : Request) (log : list Event) :
  handleGroqProxy rt request env log =
  let failed e l :=
    (Return proxy_failure_response,
     (l ++ [EvConsoleError "Error proxying Groq request:" e])%list) in
  match outbound_headers request env with
  | Throw e => failed e log
  | Return hs =>
      match new_Request (outbound_url request) (req_method request) hs
              (req_body request) with
      | Throw e => failed e log
      | Return out =>
          match global_fetch rt out with
          | Return r => (Return r, (log ++ [EvFetch out])%list)
          | Throw e => failed e (log ++ [EvFetch out])%list
          end
      end
  end.
Proof.
  unfold handleGroqProxy, outbound_headers, outbound_url, try_catch, lift,
    console_error, mbind, mret, M_mbind, M_bind, M_mret, M_ret,
    Completion_mbind, Completion_mret.
  cbv zeta.
  destruct (Headers_set "host" _ _) as [h1|e]; [|reflexivity].
  destruct (GROQ_API_KEY env) as [key|].
  - destruct (string_truthy key).
    + destruct (Headers_set "authorization" _ h1) as [h2|e]; [|reflexivity].
      destruct (new_Request _ _ h2 _) as [out|e]; [|reflexivity].
      unfold perform. by destruct (global_fetch rt out).
    + destruct (new_Request _ _ h1 _) as [out|e]; [|reflexivity].
      unfold perform. by destruct (global_fetch rt out).
  - destruct (new_Request _ _ h1 _) as [out|e]; [|reflexivity].
    unfold perform. by destruct (global_fetch rt out).
Qed.

(** The two ways the handler goes: the request is sent out, first and
    once, or a type error stops the handler before that. *)
Lemma handleGroqProxy_outcome (request : Request) (log : list Event) :
  ∃ resp new,
    handleGroqProxy rt request env log = (Return resp, (log ++ new)%list)
    ∧ if proxy_sendable request env
      then ∃ hs tail,
          outbound_headers request env = Return hs
          ∧ new = EvFetch (mkRequest (req_method request)
                             (outbound_url request) hs (req_body request))
                  :: tail
          ∧ ∀ r, EvFetch r ∉ tail
      else resp = proxy_failure_response
           ∧ ∃ msg, new = [EvConsoleError "Error proxying Groq request:"
                             (TypeError msg)].
Proof.
  rewrite handleGroqProxy_steps. cbv zeta.
  unfold proxy_sendable.
  rewrite outbound_headers_outcome.
  destruct (credential_usable env); cbn [andb].
  - rewrite new_Request_outcome. destruct (body_allowed request).
    + destruct (global_fetch rt _) as [r|e].
      * eexists r, [_]. split; [done|]. eexists _, []. split; [done|].
        split; [done|]. intros r'. apply not_elem_of_nil.
      * eexists _, [_; _]. split; [by rewrite <- app_assoc|].
        eexists _, [_]. split; [done|]. split; [done|].
        intros r'. absent_from_log.
    + eexists _, [_]. split; [done|]. split; [done|]. by eexists.
  - eexists _, [_]. split; [done|]. split; [done|]. by eexists.
Qed.

(** Whatever the handler sends out is the request built from the
    computed URL and headers. *)
Lemma handleGroqProxy_sent (request out : Request) (log new : list Event)
    (resp : Completion Response) :
  handleGroqProxy rt request env log = (resp, (log ++ new)%list) →
  EvFetch out ∈ new →
  proxy_sendable request env = true
  ∧ ∃ hs,
      outbound_headers request env = Return hs
      ∧ out = mkRequest (req_method request) (outbound_url request) hs
                (req_body request).
Proof.
  intros Hrun Hin.
  destruct (handleGroqProxy_outcome request log)
    as (resp0 & new0 & Hrun0 & Hcase).
  rewrite Hrun0 in Hrun. injection Hrun as _ Hlog.
  apply app_inv_head in Hlog. subst new0.
  destruct (proxy_sendable request env).
  - split; [done|].
    destruct Hcase as (hs & tail & Hhs & -> & Htail). exists hs.
    split; [done|].
    apply elem_of_cons in Hin as [Hin|Hin]; [by injection Hin|].
    by apply Htail in Hin.
  - destruct Hcase as (_ & msg & ->). revert Hin. absent_from_log.
Qed.
End Proxy.


(** C7: the URL the proxy computes for the outbound request is the
    inbound URL with the protocol [https:], the host name
    [api.groq.com] and no port; user name, password, path, query and
    fragment are the inbound ones.  Every request the proxy sends out
    has that URL; it sends one, once, unless the credential cannot be a
    header value or the method does not admit the body, and then it
    sends none. *)
Theorem proxy_target_url
    (rt : Runtime) (env : Env) (request : Request) (log : list Event) :
  (protocol (outbound_url request) = "https:"
   ∧ hostname (outbound_url request) = "api.groq.com"
   ∧ port (outbound_url request) = EmptyString
   ∧ username (outbound_url request) = username (req_url request)
   ∧ password (outbound_url request) = password (req_url request)
   ∧ pathname (outbound_url request) = pathname (req_url request)
   ∧ search (outbound_url request) = search (req_url request)
   ∧ hash (outbound_url request) = hash (req_url request))
  ∧ ∃ resp new,
      handleGroqProxy rt request env log = (Return resp, (log ++ new)%list)
      ∧ (∀ out, EvFetch out ∈ new → req_url out = outbound_url request)
      ∧ (proxy_sendable request env = true →
         ∃ out tail, new = EvFetch out :: tail ∧ ∀ r, EvFetch r ∉ tail)
      ∧ (proxy_sendable request env = false → ∀ r, EvFetch r ∉ new).
Proof.
  split; [by repeat split|].
  destruct (handleGroqProxy_outcome rt env request log)
    as (resp & new & Hrun & Hcase).
  exists resp, new. split; [done|]. split; [|split].
  - intros out Hin.
    destruct (handleGroqProxy_sent rt env request out log new _ Hrun Hin)
      as (_ & hs & _ & ->).
    done.
  - intros Hs. rewrite Hs in Hcase.
    destruct Hcase as (hs & tail & _ & -> & Htail). by eexists _, _.
  - intros Hs. rewrite Hs in Hcase. destruct Hcase as (_ & msg & ->).
    intros r. absent_from_log.
Qed.

(** C5, refuted as stated: for the inbound path
    [/openai/v1/chat/completions] the request sent out does not have a
    path that starts with [/v1/]. *)
Lemma proxy_path_keeps_openai_prefix :
  String.prefix "/openai/v1/"
    (pathname (req_url (sample_request "POST" "/openai/v1/chat/completions")))
  = true
  ∧ ¬ ∃ out,
        EvFetch out
        ∈ (handleGroqProxy sample_rt
             (sample_request "POST" "/openai/v1/chat/completions")
             sample_env []).2
        ∧ String.prefix "/v1/" (pathname (req_url out)) = true.
Proof.
  split; [reflexivity|].
  intros (out & Hin & Hpath).
  apply list_elem_of_singleton in Hin. inversion Hin; subst out.
  discriminate Hpath.
Qed.

(** C5 (amended): for a request under [/openai/v1/], whatever its
    method, headers and body, every request the proxy sends out goes to
    host [api.groq.com] over [https:] on the default port with the path
    as it came, which therefore still starts with [/openai/v1/] (and not
    with [/v1/]), and with the inbound method and body.  The proxy sends
    one, once, unless the credential cannot be a header value or the
    method does not admit the body; then it sends none and answers with
    the 500 response. *)
Theorem proxy_forwards_with_same_path
    (rt : Runtime) (env : Env) (request : Request) (log : list Event) :
  String.prefix "/openai/v1/" (pathname (req_url request)) = true →
  ∃ resp new,
    handleGroqProxy rt request env log = (Return resp, (log ++ new)%list)
    ∧ (∀ out,
         EvFetch out ∈ new →
         protocol (req_url out) = "https:"
         ∧ hostname (req_url out) = "api.groq.com"
         ∧ port (req_url out) = EmptyString
         ∧ pathname (req_url out) = pathname (req_url request)
         ∧ String.prefix "/openai/v1/" (pathname (req_url out)) = true
         ∧ req_method out = req_method request
         ∧ req_body out = req_body request)
    ∧ (proxy_sendable request env = true →
       ∃ out tail, new = EvFetch out :: tail ∧ ∀ r, EvFetch r ∉ tail)
    ∧ (proxy_sendable request env = false →
       resp = proxy_failure_response ∧ ∀ r, EvFetch r ∉ new).
Proof.
  intros Hpath.
  destruct (handleGroqProxy_outcome rt env request log)
    as (resp & new & Hrun & Hcase).
  exists resp, new. split; [done|]. split; [|split].
  - intros out Hin.
    destruct (handleGroqProxy_sent rt env request out log new _ Hrun Hin)
      as (_ & hs & _ & ->).
    by repeat split.
  - intros Hs. rewrite Hs in Hcase.
    destruct Hcase as (hs & tail & _ & -> & Htail). by eexists _, _.
  - intros Hs. rewrite Hs in Hcase. destruct Hcase as (-> & msg & ->).
    split; [done|]. intros r. absent_from_log.
Qed.

Lemma proxy_forwards_with_same_path_witness :
  ∃ resp new,
    handleGroqProxy sample_rt
      (sample_request "POST" "/openai/v1/chat/completions") sample_env []
    = (Return resp, ([] ++ new)%list)
    ∧ (∀ out,
         EvFetch out ∈ new →
         protocol (req_url out) = "https:"
         ∧ hostname (req_url out) = "api.groq.com"
         ∧ port (req_url out) = EmptyString
         ∧ pathname (req_url out)
           = pathname
               (req_url (sample_request "POST" "/openai/v1/chat/completions"))
         ∧ String.prefix "/openai/v1/" (pathname (req_url out)) = true
         ∧ req_method out
           = req_method (sample_request "POST" "/openai/v1/chat/completions")
         ∧ req_body out
           = req_body (sample_request "POST" "/openai/v1/chat/completions"))
    ∧ (proxy_sendable (sample_request "POST" "/openai/v1/chat/completions")
         sample_env = true →
       ∃ out tail, new = EvFetch out :: tail ∧ ∀ r, EvFetch r ∉ tail)
    ∧ (proxy_sendable (sample_request "POST" "/openai/v1/chat/completions")
         sample_env = false →
       resp = proxy_failure_response ∧ ∀ r, EvFetch r ∉ new).
Proof.
  apply (proxy_forwards_with_same_path sample_rt sample_env
           (sample_request "POST" "/openai/v1/chat/completions") []).
  reflexivity.
Defined.


(** With the credential [gsk_live] a caller's own authorization is
    replaced; with none it passes through. *)
Example proxy_overwrites_caller_authorization :
  (handleGroqProxy sample_rt
     (mkRequest "POST" (sample_url "/openai/v1/models")
        (Headers_store "Authorization" "Bearer mine" ∅) None)
     (env_with_key "gsk_live") []).2
  = [EvFetch
       (mkRequest "POST"
          (mkURL "https:" EmptyString EmptyString "api.groq.com" EmptyString
             "/openai/v1/models" EmptyString EmptyString)
          (Headers_store "host" "api.groq.com"
             (Headers_store "authorization" "Bearer gsk_live" ∅))
          None)].
Proof. vm_compute. reflexivity. Qed.

Example proxy_keeps_caller_authorization :
  (handleGroqProxy sample_rt
     (mkRequest "POST" (sample_url "/openai/v1/models")
        (Headers_store "Authorization" "Bearer mine" ∅) None)
     sample_env []).2
  = [EvFetch
       (mkRequest "POST"
          (mkURL "https:" EmptyString EmptyString "api.groq.com" EmptyString
             "/openai/v1/models" EmptyString EmptyString)
          (Headers_store "host" "api.groq.com"
             (Headers_store "authorization" "Bearer mine" ∅))
          None)].
Proof. vm_compute. reflexivity. Qed.

(** A credential with a line feed inside cannot be a header value: the
    handler answers with the 500 response and sends nothing. *)
Example proxy_broken_credential_is_500 :
  handleGroqProxy sample_rt
    (sample_request "POST" "/openai/v1/chat/completions")
    (env_with_key broken_credential) []
  = (Return proxy_failure_response,
     [EvConsoleError "Error proxying Groq request:"
        (TypeError "Invalid header name or value")]).
Proof. vm_compute. reflexivity. Qed.

(** A line feed at the end of the credential is not sent. *)
Example proxy_trims_credential :
  (handleGroqProxy sample_rt (sample_request "POST" "/openai/v1/models")
     (env_with_key ("gsk_live" +:+ String (ascii_of_nat 10) EmptyString)) []).2
  = [EvFetch
       (mkRequest "POST"
          (mkURL "https:" EmptyString EmptyString "api.groq.com" EmptyString
             "/openai/v1/models" EmptyString EmptyString)
          (Headers_store "host" "api.groq.com"
             (Headers_store "authorization" "Bearer gsk_live" ∅))
          None)].
Proof. vm_compute. reflexivity. Qed.

(** A [GET] request that carries a body cannot be rebuilt. *)
Example proxy_get_with_body_is_500 :
  (handleGroqProxy sample_rt
     (mkRequest "GET" (sample_url "/openai/v1/models") ∅ (Some []))
     sample_env []).1
  = Return proxy_failure_response.
Proof. vm_compute. reflexivity. Qed.

(** C9: the proxy always returns a response.  When something in its
    [try] block throws (setting a header, building the outbound
    request, or the network call itself) the error is logged and the
    response is the one with status 500, content type [application/json]
    and the JSON text of [error] bound to [Failed to proxy request]; in
    the case of the network call the request had been sent out first.
    When the network call returns, its response is returned as it is. *)
Theorem proxy_network_failure_is_500
    (rt : Runtime) (env : Env) (request : Request) (log : list Event) :
  (∃ resp log',
     handleGroqProxy rt request env log = (Return resp, log')
     ∧ (∀ e,
          outbound_headers request env = Throw e
          ∨ (∃ hs,
               outbound_headers request env = Return hs
               ∧ new_Request (outbound_url request) (req_method request) hs
                   (req_body request) = Throw e)
          ∨ (∃ hs out,
               outbound_headers request env = Return hs
               ∧ new_Request (outbound_url request) (req_method request) hs
                   (req_body request) = Return out
               ∧ global_fetch rt out = Throw e) →
          resp = proxy_failure_response
          ∧ EvConsoleError "Error proxying Groq request:" e ∈ log')
     ∧ (∀ hs out,
          outbound_headers request env = Return hs →
          new_Request (outbound_url request) (req_method request) hs
            (req_body request) = Return out →
          (∀ e,
             global_fetch rt out = Throw e →
             log' = (log ++ [EvFetch out;
                             EvConsoleError "Error proxying Groq request:" e])%list)
          ∧ (∀ r,
               global_fetch rt out = Return r →
               resp = r ∧ log' = (log ++ [EvFetch out])%list)))
  ∧ status proxy_failure_response = 500
  ∧ resp_body proxy_failure_response
    = Some (BodyText (error_json_text "Failed to proxy request"))
  ∧ Headers_get "Content-Type" (resp_headers proxy_failure_response)
    = Some "application/json".
Proof.
  split; [|by repeat split].
  rewrite handleGroqProxy_steps. cbv zeta.
  destruct (outbound_headers request env) as [hs|e0] eqn:Hhs.
  - destruct (new_Request _ _ hs _) as [out|e0] eqn:Hout.
    + destruct (global_fetch rt out) as [r|e0] eqn:Hfetch; eexists _, _;
        (split; [reflexivity|]); split.
      * intros e [H|[(h & H & H')|(h & o & H & H' & H'')]];
          simplify_eq; congruence.
      * intros h o H H'. injection H as <-.
        rewrite Hout in H'. injection H' as <-.
        split; [congruence|]. intros r' Hr. split; [congruence|done].
      * intros e [H|[(h & H & H')|(h & o & H & H' & H'')]];
          simplify_eq; try congruence.
        assert (e = e0) as -> by congruence.
        split; [done|]. apply elem_of_app. right.
        by apply list_elem_of_singleton.
      * intros h o H H'. injection H as <-.
        rewrite Hout in H'. injection H' as <-.
        split; [|congruence].
        intros e He. assert (e = e0) as -> by congruence.
        by rewrite <- app_assoc.
    + eexists _, _. split; [reflexivity|]. split.
      * intros e [H|[(h & H & H')|(h & o & H & H' & H'')]];
          simplify_eq; try congruence.
        assert (e = e0) as -> by congruence.
        split; [done|]. apply elem_of_app. right.
        by apply list_elem_of_singleton.
      * intros h o H H'. injection H as <-. congruence.
  - eexists _, _. split; [reflexivity|]. split.
    + intros e [H|[(h & H & H')|(h & o & H & H' & H'')]]; simplify_eq.
      split; [done|]. apply elem_of_app. right.
      by apply list_elem_of_singleton.
    + intros h o H. discriminate H.
Qed.

(** The network being unreachable. *)
Example proxy_offline_is_500 :
  handleGroqProxy rt_offline
    (sample_request "POST" "/openai/v1/chat/completions") sample_env []
  = (Return proxy_failure_response,
     [EvFetch
        (mkRequest "POST"
           (mkURL "https:" EmptyString EmptyString "api.groq.com" EmptyString
              "/openai/v1/chat/completions" EmptyString EmptyString)
           (Headers_store "host" "api.groq.com" ∅) None);
      EvConsoleError "Error proxying Groq request:" (TypeError "fetch failed")]).
Proof. vm_compute. reflexivity. Qed.


(** * Further properties of the handlers *)

(** ** Shared facts *)

(** The three ways a chat request can end. *)
Lemma handleChatRequest_outcomes (rt : Runtime) (env : Env)
    (request : Request) (log : list Event) :
  (∃ e,
     handleChatRequest rt request env log
     = (Return chat_failure_response,
        (log ++ [EvConsoleError "Error processing chat request:" e])%list))
  ∨ (∃ msgs s,
       handleChatRequest rt request env log
       = (Return (chat_stream_response s),
          (log ++ [EvAiRun MODEL_ID (mkAiInput msgs 1024 true)])%list))
  ∨ (∃ msgs e,
       handleChatRequest rt request env log
       = (Return chat_failure_response,
          (log ++ [EvAiRun MODEL_ID (mkAiInput msgs 1024 true);
                   EvConsoleError "Error processing chat request:" e])%list)).
Proof.
  rewrite handleChatRequest_steps. cbv zeta.
  destruct (JSON_parse rt _) as [body|e]; [|by left; exists e].
  destruct (amended_messages body) as [msgs|e]; [|by left; exists e].
  destruct (AI_run env MODEL_ID _) as [s|e].
  - right. left. by exists msgs, s.
  - right. right. exists msgs, e. by rewrite <- app_assoc.
Qed.

(** The route of [/api/chat]. *)
Lemma fetch_chat_branch (rt : Runtime) (env : Env) (request : Request)
    (log : list Event) :
  pathname (req_url request) = "/api/chat" →
  fetch rt request env log
  = if String.eqb (req_method request) "POST"
    then handleChatRequest rt request env log
    else (Return (new_Response (Some (BodyText "Method not allowed"))
                    (mkResponseInit (Some 405) ∅)), log).
Proof.
  intros Hpath. unfold fetch, new_URL. rewrite Hpath. simpl.
  by destruct (String.eqb (req_method request) "POST").
Qed.

(** ** The router, further *)

(** X1: a request to [/api/chat] whose method is not [POST] is answered
    with status 405 and body [Method not allowed], and none of the
    outside capabilities (assets, inference, network, console) is
    called. *)
Theorem chat_route_rejects_other_methods
    (rt : Runtime) (env : Env) (request : Request) (log : list Event) :
  pathname (req_url request) = "/api/chat" →
  req_method request ≠ "POST" →
  ∃ resp,
    fetch rt request env log = (Return resp, log)
    ∧ status resp = 405
    ∧ resp_body resp = Some (BodyText "Method not allowed").
Proof.
  intros Hpath Hmethod.
  exists (new_Response (Some (BodyText "Method not allowed"))
            (mkResponseInit (Some 405) ∅)).
  split; [|by split].
  rewrite (fetch_chat_branch rt env request log Hpath).
  apply String.eqb_neq in Hmethod. by rewrite Hmethod.
Qed.

Lemma chat_route_rejects_other_methods_witness :
  ∃ resp,
    fetch sample_rt (sample_request "GET" "/api/chat") sample_env []
    = (Return resp, [])
    ∧ status resp = 405
    ∧ resp_body resp = Some (BodyText "Method not allowed").
Proof.
  apply (chat_route_rejects_other_methods sample_rt sample_env
           (sample_request "GET" "/api/chat") []).
  - reflexivity.
  - discriminate.
Defined.

(** X2: [POST /api/chat] with a body that parses, messages that the
    scan accepts and an inference binding that answers with a stream is
    answered, through the router, with status 200, that stream as the
    body and exactly the three headers of a server-sent event stream;
    the inference call is the only call made. *)
Theorem chat_route_streams_inference
    (rt : Runtime) (env : Env) (request : Request) (log : list Event)
    (body msgs : JSON) (s : ReadableStream) :
  pathname (req_url request) = "/api/chat" →
  req_method request = "POST" →
  JSON_parse rt (default [] (req_body request)) = Return body →
  amended_messages body = Return msgs →
  AI_run env MODEL_ID (mkAiInput msgs 1024 true) = Return s →
  ∃ resp,
    fetch rt request env log
    = (Return resp,
       (log ++ [EvAiRun MODEL_ID (mkAiInput msgs 1024 true)])%list)
    ∧ status resp = 200
    ∧ resp_body resp = Some (BodyStream s)
    ∧ ∀ name,
        Headers_get name (resp_headers resp)
        = if String.eqb (lower name) "content-type"
          then Some "text/event-stream; charset=utf-8"
          else if String.eqb (lower name) "cache-control" then Some "no-cache"
          else if String.eqb (lower name) "connection" then Some "keep-alive"
          else None.
Proof.
  intros Hpath Hmethod Hparse Hmsgs Hrun.
  exists (chat_stream_response s). split; [|split; [done|split; [done|]]].
  - rewrite (fetch_chat_branch rt env request log Hpath), Hmethod. simpl.
    by rewrite handleChatRequest_steps, Hparse, Hmsgs, Hrun.
  - intros name. unfold Headers_get.
    change (resp_headers (chat_stream_response s))
      with (<["connection" := "keep-alive"]>
              (<["cache-control" := "no-cache"]>
                 (<["content-type" := "text/event-stream; charset=utf-8"]>
                    (∅ : gmap string string)))).
    destruct (String.eqb_spec (lower name) "content-type") as [->|H1].
    { rewrite !lookup_insert_ne by done. apply lookup_insert_eq. }
    destruct (String.eqb_spec (lower name) "cache-control") as [->|H2].
    { rewrite lookup_insert_ne by done. apply lookup_insert_eq. }
    destruct (String.eqb_spec (lower name) "connection") as [->|H3].
    { apply lookup_insert_eq. }
    rewrite !lookup_insert_ne by done. apply lookup_empty.
Qed.

Lemma chat_route_streams_inference_witness :
  ∃ resp,
    fetch (rt_parsing (chat_body [hello_json]))
      (sample_request "POST" "/api/chat") sample_env []
    = (Return resp,
       ([] ++ [EvAiRun MODEL_ID
                 (mkAiInput
                    (JArray [message_object "system" SYSTEM_PROMPT; hello_json])
                    1024 true)])%list)
    ∧ status resp = 200
    ∧ resp_body resp = Some (BodyStream [])
    ∧ ∀ name,
        Headers_get name (resp_headers resp)
        = if String.eqb (lower name) "content-type"
          then Some "text/event-stream; charset=utf-8"
          else if String.eqb (lower name) "cache-control" then Some "no-cache"
          else if String.eqb (lower name) "connection" then Some "keep-alive"
          else None.
Proof.
  apply (chat_route_streams_inference (rt_parsing (chat_body [hello_json]))
           sample_env (sample_request "POST" "/api/chat") []
           (chat_body [hello_json])).
  - reflexivity.
  - reflexivity.
  - reflexivity.
  - reflexivity.
  - reflexivity.
Defined.

(** The routes under [/api/]. *)
Lemma fetch_api_branch (rt : Runtime) (env : Env) (request : Request)
    (log : list Event) :
  String.prefix "/api/" (pathname (req_url request)) = true →
  fetch rt request env log
  = if String.eqb (pathname (req_url request)) "/api/chat"
    then if String.eqb (req_method request) "POST"
         then handleChatRequest rt request env log
         else (Return (new_Response (Some (BodyText "Method not allowed"))
                         (mkResponseInit (Some 405) ∅)), log)
    else (Return (new_Response (Some (BodyText "Not found"))
                    (mkResponseInit (Some 404) ∅)), log).
Proof.
  intros Hapi. unfold fetch, new_URL. rewrite Hapi.
  destruct (String.eqb (pathname (req_url request)) "/") eqn:Hroot.
  { apply String.eqb_eq in Hroot. rewrite Hroot in Hapi. discriminate. }
  simpl.
  destruct (String.eqb (pathname (req_url request)) "/api/chat").
  - by destruct (String.eqb (req_method request) "POST").
  - destruct (String.prefix "/openai/v1/" (pathname (req_url request))) eqn:Ho;
      [|done].
    apply openai_path_not_api in Ho. congruence.
Qed.

(** X3: a request under [/api/] always gets a response from the router,
    never an exception, and neither the asset binding nor the network
    is called for it. *)
Theorem api_requests_always_answered
    (rt : Runtime) (env : Env) (request : Request) (log : list Event) :
  String.prefix "/api/" (pathname (req_url request)) = true →
  ∃ resp new,
    fetch rt request env log = (Return resp, (log ++ new)%list)
    ∧ ∀ r, (EvAssetsFetch r ∉ new) ∧ (EvFetch r ∉ new).
Proof.
  intros Hapi. rewrite (fetch_api_branch rt env request log Hapi).
  destruct (String.eqb (pathname (req_url request)) "/api/chat").
  - destruct (String.eqb (req_method request) "POST").
    + destruct (handleChatRequest_outcomes rt env request log)
        as [(e & ->)|[(msgs & s & ->)|(msgs & e & ->)]];
        eexists _, _; (split; [reflexivity|]);
        intros r; split; absent_from_log.
    + eexists _, []. split; [by rewrite app_nil_r|].
      intros r. split; absent_from_log.
  - eexists _, []. split; [by rewrite app_nil_r|].
    intros r. split; absent_from_log.
Qed.

Lemma api_requests_always_answered_witness :
  ∃ resp new,
    fetch sample_rt (sample_request "POST" "/api/chat") env_ai_down []
    = (Return resp, ([] ++ new)%list)
    ∧ ∀ r, (EvAssetsFetch r ∉ new) ∧ (EvFetch r ∉ new).
Proof.
  apply (api_requests_always_answered sample_rt env_ai_down
           (sample_request "POST" "/api/chat") []).
  reflexivity.
Defined.

(** X4: the router lets an exception out only on the asset route: if
    [fetch] throws, the path is [/] or outside [/api/], the exception is
    the asset binding's, and that call is the only one made. *)
Theorem router_throws_only_from_assets
    (rt : Runtime) (env : Env) (request : Request) (log log' : list Event)
    (e : JsError) :
  fetch rt request env log = (Throw e, log') →
  (pathname (req_url request) = "/"
   ∨ String.prefix "/api/" (pathname (req_url request)) = false)
  ∧ ASSETS_fetch env request = Throw e
  ∧ log' = (log ++ [EvAssetsFetch request])%list.
Proof.
  intros Hthrow.
  destruct (String.prefix "/api/" (pathname (req_url request))) eqn:Hapi.
  - rewrite (fetch_api_branch rt env request log Hapi) in Hthrow.
    destruct (String.eqb (pathname (req_url request)) "/api/chat");
      [|discriminate Hthrow].
    destruct (String.eqb (req_method request) "POST"); [|discriminate Hthrow].
    destruct (handleChatRequest_outcomes rt env request log)
      as [(e' & H)|[(msgs & s & H)|(msgs & e' & H)]];
      rewrite H in Hthrow; discriminate Hthrow.
  - rewrite (fetch_assets_branch rt env request log (or_intror Hapi)) in Hthrow.
    inversion Hthrow. auto.
Qed.

Lemma router_throws_only_from_assets_witness :
  (pathname (req_url (sample_request "GET" "/")) = "/"
   ∨ String.prefix "/api/" (pathname (req_url (sample_request "GET" "/")))
     = false)
  ∧ ASSETS_fetch env_assets_down (sample_request "GET" "/")
    = Throw (OtherError "asset not available")
  ∧ [EvAssetsFetch (sample_request "GET" "/")]
    = ([] ++ [EvAssetsFetch (sample_request "GET" "/")])%list.
Proof.
  apply (router_throws_only_from_assets sample_rt env_assets_down
           (sample_request "GET" "/") []).
  reflexivity.
Defined.

(** X5: only a [POST] to [/api/chat] reaches the inference binding:
    if the router's calls for a request include an inference call, the
    request's path is [/api/chat] and its method is [POST]. *)
Theorem inference_only_for_chat_posts
    (rt : Runtime) (env : Env) (request : Request) (log new : list Event)
    (resp : Completion Response) (model : string) (input : AiInput) :
  fetch rt request env log = (resp, (log ++ new)%list) →
  EvAiRun model input ∈ new →
  pathname (req_url request) = "/api/chat" ∧ req_method request = "POST".
Proof.
  intros Hrun Hin.
  destruct (String.prefix "/api/" (pathname (req_url request))) eqn:Hapi.
  - rewrite (fetch_api_branch rt env request log Hapi) in Hrun.
    destruct (String.eqb_spec (pathname (req_url request)) "/api/chat")
      as [Hpath|_].
    + destruct (String.eqb_spec (req_method request) "POST") as [Hm|_];
        [done|].
      injection Hrun as _ Hlog.
      rewrite <- (app_nil_r log) in Hlog at 1.
      apply app_inv_head in Hlog. subst new. by apply not_elem_of_nil in Hin.
    + injection Hrun as _ Hlog.
      rewrite <- (app_nil_r log) in Hlog at 1.
      apply app_inv_head in Hlog. subst new. by apply not_elem_of_nil in Hin.
  - rewrite (fetch_assets_branch rt env request log (or_intror Hapi)) in Hrun.
    injection Hrun as _ Hlog. apply app_inv_head in Hlog. subst new.
    apply list_elem_of_singleton in Hin. discriminate Hin.
Qed.

Lemma inference_only_for_chat_posts_witness :
  pathname (req_url (sample_request "POST" "/api/chat")) = "/api/chat"
  ∧ req_method (sample_request "POST" "/api/chat") = "POST".
Proof.
  apply (inference_only_for_chat_posts (rt_parsing (chat_body [hello_json]))
           sample_env (sample_request "POST" "/api/chat") []
           [EvAiRun MODEL_ID
              (mkAiInput
                 (JArray [message_object "system" SYSTEM_PROMPT; hello_json])
                 1024 true)]
           (Return (chat_stream_response []))
           MODEL_ID
           (mkAiInput
              (JArray [message_object "system" SYSTEM_PROMPT; hello_json])
              1024 true)).
  - reflexivity.
  - apply list_elem_of_here.
Defined.

(** ** The chat handler, further *)

(** X6: the chat handler calls neither the asset binding nor the
    network; an inference call, if one is made, is the first call, the
    only one, and is made with the fixed model, 1024 output tokens and
    streaming on; the response has status 200 or 500, and it is 500
    exactly when an error was logged. *)
Theorem chat_handler_call_discipline
    (rt : Runtime) (env : Env) (request : Request) (log : list Event) :
  ∃ resp new,
    handleChatRequest rt request env log = (Return resp, (log ++ new)%list)
    ∧ (∀ r, (EvAssetsFetch r ∉ new) ∧ (EvFetch r ∉ new))
    ∧ (∀ model input,
         EvAiRun model input ∈ new →
         model = MODEL_ID ∧ max_tokens input = 1024 ∧ stream input = true
         ∧ ∃ tail, new = EvAiRun model input :: tail
                   ∧ ∀ m i, EvAiRun m i ∉ tail)
    ∧ (status resp = 200 ∨ status resp = 500)
    ∧ (status resp = 500
       ↔ ∃ e, EvConsoleError "Error processing chat request:" e ∈ new).
Proof.
  destruct (handleChatRequest_outcomes rt env request log)
    as [(e & ->)|[(msgs & s & ->)|(msgs & e & ->)]]; eexists _, _;
    (split; [reflexivity|]); (split; [intros r; split; absent_from_log|]).
  - split; [intros model input; absent_from_log|].
    split; [by right|]. split; [|done]. intros _. exists e.
    apply list_elem_of_here.
  - split.
    + intros model input Hin. apply list_elem_of_singleton in Hin.
      inversion Hin; subst. repeat split. eexists. split; [done|].
      intros m i. apply not_elem_of_nil.
    + split; [by left|]. split; [discriminate|].
      intros (e & He). revert He. absent_from_log.
  - split.
    + intros model input [Hin|Hin]%elem_of_cons;
        [|revert Hin; absent_from_log].
      inversion Hin; subst. repeat split. eexists. split; [done|].
      intros m i. absent_from_log.
    + split; [by right|]. split; [|done]. intros _. exists e.
      apply list_elem_of_further, list_elem_of_here.
Qed.

(** *** Which bodies reach the inference call *)

Lemma is_system_outcome (msg : JSON) :
  is_system msg
  = match msg with
    | JNull =>
        Throw (TypeError "Cannot read properties of null (reading 'role')")
    | _ => Return (is_system_message msg)
    end.
Proof. by destruct msg. Qed.

(** The scan ends with an exception exactly on an array that is not
    [scannable], and otherwise tells whether a system message is there. *)
Lemma Array_some_outcome (items : list JSON) :
  Array_some is_system items
  = if scannable items
    then Return (existsb is_system_message items)
    else Throw (TypeError "Cannot read properties of null (reading 'role')").
Proof.
  induction items as [|x items IH]; [done|].
  cbn [Array_some scannable existsb]. rewrite is_system_outcome.
  destruct x; try done;
    by (destruct (is_system_message _); [done|rewrite IH; simpl]).
Qed.

(** The messages handed on, for every body. *)
Lemma amended_messages_outcome (body : JSON) :
  amended_messages body
  = match destructure_messages body with
    | Throw e => Throw e
    | Return (JArray arr) =>
        if scannable arr
        then Return (JArray (if existsb is_system_message arr then arr
                             else message_object "system" SYSTEM_PROMPT :: arr))
        else Throw (TypeError "Cannot read properties of null (reading 'role')")
    | Return JNull =>
        Throw (TypeError "Cannot read properties of null (reading 'some')")
    | Return _ => Throw (TypeError "messages.some is not a function")
    end.
Proof.
  cbv [amended_messages mbind mret Completion_mbind Completion_mret].
  destruct (destructure_messages body) as [[| | | |arr|]|e]; try done.
  simpl. rewrite Array_some_outcome.
  destruct (scannable arr); [|done].
  by destruct (existsb is_system_message arr).
Qed.

(** An inference call in the handler's log comes from a body that
    parsed and from the messages settled for it. *)
Lemma handleChatRequest_call_inv (rt : Runtime) (env : Env)
    (request : Request) (log new : list Event) (resp : Completion Response)
    (model : string) (input : AiInput) :
  handleChatRequest rt request env log = (resp, (log ++ new)%list) →
  EvAiRun model input ∈ new →
  ∃ body,
    JSON_parse rt (default [] (req_body request)) = Return body
    ∧ amended_messages body = Return (messages input)
    ∧ model = MODEL_ID
    ∧ input = mkAiInput (messages input) 1024 true.
Proof.
  rewrite handleChatRequest_steps. cbv zeta. intros Hrun Hin.
  destruct (JSON_parse rt _) as [body|e].
  - exists body. split; [done|].
    destruct (amended_messages body) as [msgs|e].
    + destruct (AI_run env MODEL_ID _) as [s|e];
        injection Hrun as _ Hlog; rewrite <- ?app_assoc in Hlog;
        apply app_inv_head in Hlog; subst new;
        apply elem_of_cons in Hin as [Hin|Hin];
        try (revert Hin; absent_from_log);
        by inversion Hin.
    + injection Hrun as _ Hlog. apply app_inv_head in Hlog. subst new.
      revert Hin. absent_from_log.
  - injection Hrun as _ Hlog. apply app_inv_head in Hlog. subst new.
    revert Hin. absent_from_log.
Qed.

Lemma destructure_messages_of_field (fields : gmap string JSON) (v : JSON) :
  fields !! "messages" = Some v →
  destructure_messages (JObject fields) = Return v.
Proof.
  intros Hget.
  cbv [destructure_messages get_property mbind mret Completion_mbind
       Completion_mret].
  by rewrite Hget.
Qed.

(** X7: whatever the body parsed to, the messages of an inference call
    are the array bound to [messages] in the body (the empty array when
    the body has no such key), preceded by the default system message
    exactly when no element of that array is an object whose role is
    [system]; nothing is dropped, reordered or rewritten. *)
Theorem forwarded_messages_keep_original
    (rt : Runtime) (env : Env) (request : Request) (log new : list Event)
    (resp : Completion Response) (model : string) (input : AiInput) :
  handleChatRequest rt request env log = (resp, (log ++ new)%list) →
  EvAiRun model input ∈ new →
  ∃ body arr,
    JSON_parse rt (default [] (req_body request)) = Return body
    ∧ destructure_messages body = Return (JArray arr)
    ∧ messages input
      = JArray (if existsb is_system_message arr then arr
                else message_object "system" SYSTEM_PROMPT :: arr).
Proof.
  intros Hrun Hin.
  destruct (handleChatRequest_call_inv rt env request log new resp model
              input Hrun Hin) as (body & Hparse & Hmsgs & _).
  exists body. rewrite amended_messages_outcome in Hmsgs.
  destruct (destructure_messages body) as [[| | | |arr|]|e];
    try discriminate Hmsgs.
  exists arr. destruct (scannable arr); [|discriminate Hmsgs].
  split; [done|]. split; [done|]. by injection Hmsgs as <-.
Qed.

Lemma forwarded_messages_keep_original_witness :
  ∃ body arr,
    JSON_parse (rt_parsing (chat_body [JString "hi"; JBool true]))
      (default [] (req_body (sample_request "POST" "/api/chat")))
    = Return body
    ∧ destructure_messages body = Return (JArray arr)
    ∧ messages
        (mkAiInput
           (JArray [message_object "system" SYSTEM_PROMPT; JString "hi";
                    JBool true]) 1024 true)
      = JArray (if existsb is_system_message arr then arr
                else message_object "system" SYSTEM_PROMPT :: arr).
Proof.
  apply (forwarded_messages_keep_original
           (rt_parsing (chat_body [JString "hi"; JBool true])) sample_env
           (sample_request "POST" "/api/chat") []
           [EvAiRun MODEL_ID
              (mkAiInput
                 (JArray [message_object "system" SYSTEM_PROMPT; JString "hi";
                          JBool true]) 1024 true)]
           (Return (chat_stream_response [])) MODEL_ID).
  - reflexivity.
  - apply list_elem_of_here.
Defined.

(** X8: for a body whose [messages] is an array, the inference call is
    made exactly when the scan meets no [null] before a system message
    (elements of any other shape are let through); otherwise the answer
    is the 500 response, after the one log entry of the type error. *)
Theorem inference_reached_iff_scannable
    (rt : Runtime) (env : Env) (request : Request) (log : list Event)
    (fields : gmap string JSON) (arr : list JSON) :
  JSON_parse rt (default [] (req_body request)) = Return (JObject fields) →
  fields !! "messages" = Some (JArray arr) →
  ∃ resp new,
    handleChatRequest rt request env log = (Return resp, (log ++ new)%list)
    ∧ ((∃ input, EvAiRun MODEL_ID input ∈ new) ↔ scannable arr = true)
    ∧ (scannable arr = false →
       resp = chat_failure_response
       ∧ ∃ msg, new = [EvConsoleError "Error processing chat request:"
                         (TypeError msg)]).
Proof.
  intros Hparse Hget.
  rewrite handleChatRequest_steps, Hparse, amended_messages_outcome.
  rewrite (destructure_messages_of_field fields _ Hget). cbv zeta.
  destruct (scannable arr).
  - match goal with
    | |- context [AI_run env MODEL_ID ?i] =>
        destruct (AI_run env MODEL_ID i) as [s|e];
        [exists (chat_stream_response s), [EvAiRun MODEL_ID i]
        |exists chat_failure_response,
           [EvAiRun MODEL_ID i;
            EvConsoleError "Error processing chat request:" e]]
    end;
      (split; [by rewrite <- ?app_assoc|]); (split; [|done]);
      (split; [done|]); intros _; eexists; apply list_elem_of_here.
  - eexists _, _. split; [reflexivity|].
    split; [|intros _; split; [done|by eexists]].
    split; [|done]. intros (input & Hin). revert Hin. absent_from_log.
Qed.

Lemma inference_reached_iff_scannable_witness :
  ∃ resp new,
    handleChatRequest (rt_parsing (chat_body [hello_json; JNull]))
      (sample_request "POST" "/api/chat") sample_env []
    = (Return resp, ([] ++ new)%list)
    ∧ ((∃ input, EvAiRun MODEL_ID input ∈ new)
       ↔ scannable [hello_json; JNull] = true)
    ∧ (scannable [hello_json; JNull] = false →
       resp = chat_failure_response
       ∧ ∃ msg, new = [EvConsoleError "Error processing chat request:"
                         (TypeError msg)]).
Proof.
  apply (inference_reached_iff_scannable
           (rt_parsing (chat_body [hello_json; JNull])) sample_env
           (sample_request "POST" "/api/chat") []
           (<["messages" := JArray [hello_json; JNull]]> ∅)).
  - reflexivity.
  - reflexivity.
Defined.

Lemma scannable_up_to_system (pre post : list JSON) (sysm : JSON) :
  Forall (λ x, x ≠ JNull) pre →
  is_system_message sysm = true →
  scannable (pre ++ sysm :: post) = true
  ∧ existsb is_system_message (pre ++ sysm :: post) = true.
Proof.
  intros Hpre Hsys. induction Hpre as [|x pre Hx _ [IH1 IH2]]; simpl.
  - rewrite Hsys. by destruct sysm.
  - rewrite IH1, IH2, !orb_true_r. by destruct x.
Qed.

(** X9: the scan stops at the first system message: when the elements
    before it are not [null], the array is handed to the one inference
    call unchanged, whatever follows that message (a [null] included). *)
Theorem scan_stops_at_first_system_message
    (rt : Runtime) (env : Env) (request : Request) (log : list Event)
    (fields : gmap string JSON) (pre post : list JSON) (sysm : JSON) :
  JSON_parse rt (default [] (req_body request)) = Return (JObject fields) →
  fields !! "messages" = Some (JArray (pre ++ sysm :: post)) →
  Forall (λ x, x ≠ JNull) pre →
  is_system_message sysm = true →
  ∃ resp tail,
    handleChatRequest rt request env log
    = (Return resp,
       (log ++ EvAiRun MODEL_ID
                 (mkAiInput (JArray (pre ++ sysm :: post)) 1024 true)
            :: tail)%list)
    ∧ ∀ model input, EvAiRun model input ∉ tail.
Proof.
  intros Hparse Hget Hpre Hsys.
  apply (handleChatRequest_forwards rt env request log (JObject fields));
    [done|].
  rewrite amended_messages_outcome.
  rewrite (destructure_messages_of_field fields _ Hget).
  destruct (scannable_up_to_system pre post sysm Hpre Hsys) as [-> ->].
  done.
Qed.

Lemma scan_stops_at_first_system_message_witness :
  ∃ resp tail,
    handleChatRequest
      (rt_parsing
         (chat_body ([hello_json] ++ message_object "system" "Be brief."
                                  :: [JNull])))
      (sample_request "POST" "/api/chat") sample_env []
    = (Return resp,
       ([] ++ EvAiRun MODEL_ID
                (mkAiInput
                   (JArray ([hello_json] ++ message_object "system" "Be brief."
                                         :: [JNull])) 1024 true)
           :: tail)%list)
    ∧ ∀ model input, EvAiRun model input ∉ tail.
Proof.
  apply (scan_stops_at_first_system_message
           (rt_parsing
              (chat_body ([hello_json] ++ message_object "system" "Be brief."
                                       :: [JNull])))
           sample_env (sample_request "POST" "/api/chat") []
           (<["messages" := JArray ([hello_json]
                                    ++ message_object "system" "Be brief."
                                    :: [JNull])]> ∅)).
  - reflexivity.
  - reflexivity.
  - constructor; [discriminate|constructor].
  - reflexivity.
Defined.

(** X10: a body that is [null], or an object whose [messages] is
    present but not an array (an explicit [null] included: the default
    only stands in for a missing key), is answered with the 500
    response; a type error is logged and no inference call is made. *)
Theorem malformed_body_is_500
    (rt : Runtime) (env : Env) (request : Request) (log : list Event)
    (body : JSON) :
  JSON_parse rt (default [] (req_body request)) = Return body →
  body = JNull
  ∨ (∃ fields v,
       body = JObject fields
       ∧ fields !! "messages" = Some v
       ∧ ∀ items, v ≠ JArray items) →
  ∃ msg,
    handleChatRequest rt request env log
    = (Return chat_failure_response,
       (log ++ [EvConsoleError "Error processing chat request:"
                  (TypeError msg)])%list).
Proof.
  intros Hparse Hbad.
  rewrite handleChatRequest_steps, Hparse, amended_messages_outcome.
  destruct Hbad as [->|(fields & v & -> & Hget & Hv)].
  - by eexists.
  - rewrite (destructure_messages_of_field fields v Hget).
    destruct v as [| | | |items|]; try by eexists.
    by destruct (Hv items).
Qed.

Lemma malformed_body_is_500_witness :
  ∃ msg,
    handleChatRequest (rt_parsing (body_with_messages JNull))
      (sample_request "POST" "/api/chat") sample_env []
    = (Return chat_failure_response,
       ([] ++ [EvConsoleError "Error processing chat request:"
                 (TypeError msg)])%list).
Proof.
  apply (malformed_body_is_500 (rt_parsing (body_with_messages JNull))
           sample_env (sample_request "POST" "/api/chat") []
           (body_with_messages JNull)).
  - reflexivity.
  - right. exists (<["messages" := JNull]> ∅), JNull.
    split; [reflexivity|]. split; [reflexivity|]. discriminate.
Defined.

(** X11: a body that parses to something other than [null] or an object
    (a number, a string, a boolean, or an array, even one of messages)
    is taken as an empty conversation: the one inference call receives
    exactly the default system message. *)
Theorem non_object_body_is_empty_conversation
    (rt : Runtime) (env : Env) (request : Request) (log : list Event)
    (body : JSON) :
  JSON_parse rt (default [] (req_body request)) = Return body →
  body ≠ JNull →
  (∀ fields, body ≠ JObject fields) →
  ∃ resp tail,
    handleChatRequest rt request env log
    = (Return resp,
       (log ++ EvAiRun MODEL_ID
                 (mkAiInput (JArray [message_object "system" SYSTEM_PROMPT])
                    1024 true)
            :: tail)%list)
    ∧ ∀ model input, EvAiRun model input ∉ tail.
Proof.
  intros Hparse Hnull Hobj.
  apply (handleChatRequest_forwards rt env request log body); [done|].
  apply amended_messages_of_nothing. left.
  destruct body as [| | | | |fields]; try done.
  by destruct (Hobj fields).
Qed.

Lemma non_object_body_is_empty_conversation_witness :
  ∃ resp tail,
    handleChatRequest (rt_parsing (JArray [hello_json]))
      (sample_request "POST" "/api/chat") sample_env []
    = (Return resp,
       ([] ++ EvAiRun MODEL_ID
                (mkAiInput (JArray [message_object "system" SYSTEM_PROMPT])
                   1024 true)
           :: tail)%list)
    ∧ ∀ model input, EvAiRun model input ∉ tail.
Proof.
  apply (non_object_body_is_empty_conversation (rt_parsing (JArray [hello_json]))
           sample_env (sample_request "POST" "/api/chat") []
           (JArray [hello_json])).
  - reflexivity.
  - discriminate.
  - discriminate.
Defined.

(** X12: the messages an inference call received are stable under the
    handler: sent back as the [messages] of another request, they are
    handed to that request's inference call unchanged, with no second
    system message put in front. *)
Theorem forwarded_messages_are_stable
    (rt1 rt2 : Runtime) (env1 env2 : Env) (request1 request2 : Request)
    (log1 log2 new1 : list Event) (resp1 : Completion Response)
    (out : list JSON) (fields : gmap string JSON) :
  handleChatRequest rt1 request1 env1 log1 = (resp1, (log1 ++ new1)%list) →
  EvAiRun MODEL_ID (mkAiInput (JArray out) 1024 true) ∈ new1 →
  JSON_parse rt2 (default [] (req_body request2)) = Return (JObject fields) →
  fields !! "messages" = Some (JArray out) →
  ∃ resp2 tail,
    handleChatRequest rt2 request2 env2 log2
    = (Return resp2,
       (log2 ++ EvAiRun MODEL_ID (mkAiInput (JArray out) 1024 true)
             :: tail)%list)
    ∧ ∀ model input, EvAiRun model input ∉ tail.
Proof.
  intros Hrun1 Hin Hparse2 Hget.
  destruct (handleChatRequest_call_inv rt1 env1 request1 log1 new1 resp1 _ _
              Hrun1 Hin) as (body & _ & Hmsgs & _).
  simpl in Hmsgs.
  apply (handleChatRequest_forwards rt2 env2 request2 log2 (JObject fields));
    [done|].
  rewrite amended_messages_outcome,
    (destructure_messages_of_field fields _ Hget).
  rewrite amended_messages_outcome in Hmsgs.
  destruct (destructure_messages body) as [[| | | |arr|]|e];
    try discriminate Hmsgs.
  destruct (scannable arr) eqn:Hscan; [|discriminate Hmsgs].
  destruct (existsb is_system_message arr) eqn:Hsys;
    injection Hmsgs as <-.
  - by rewrite Hscan, Hsys.
  - done.
Qed.

Lemma forwarded_messages_are_stable_witness :
  ∃ resp2 tail,
    handleChatRequest
      (rt_parsing (chat_body [message_object "system" SYSTEM_PROMPT; hello_json]))
      (sample_request "POST" "/api/chat") env_ai_down []
    = (Return resp2,
       ([] ++ EvAiRun MODEL_ID
                (mkAiInput
                   (JArray [message_object "system" SYSTEM_PROMPT; hello_json])
                   1024 true)
           :: tail)%list)
    ∧ ∀ model input, EvAiRun model input ∉ tail.
Proof.
  apply (forwarded_messages_are_stable
           (rt_parsing (chat_body [hello_json]))
           (rt_parsing
              (chat_body [message_object "system" SYSTEM_PROMPT; hello_json]))
           sample_env env_ai_down
           (sample_request "POST" "/api/chat")
           (sample_request "POST" "/api/chat")
           [] []
           [EvAiRun MODEL_ID
              (mkAiInput
                 (JArray [message_object "system" SYSTEM_PROMPT; hello_json])
                 1024 true)]
           (Return (chat_stream_response []))
           [message_object "system" SYSTEM_PROMPT; hello_json]
           (<["messages" :=
                JArray [message_object "system" SYSTEM_PROMPT; hello_json]]> ∅)).
  - reflexivity.
  - apply list_elem_of_here.
  - reflexivity.
  - reflexivity.
Defined.

(** ** The proxy, further *)

(** X13: the proxy's rewriting is idempotent: the request it sent out,
    handed to the proxy again under the same configuration, is sent out
    as it is. *)
Theorem proxy_rewrite_is_idempotent
    (rt : Runtime) (env : Env) (request out : Request)
    (log1 log2 new : list Event) (resp : Completion Response) :
  handleGroqProxy rt request env log1 = (resp, (log1 ++ new)%list) →
  EvFetch out ∈ new →
  ∃ resp' tail,
    handleGroqProxy rt out env log2
    = (Return resp', (log2 ++ EvFetch out :: tail)%list)
    ∧ ∀ r, EvFetch r ∉ tail.
Proof.
  intros Hrun Hin.
  destruct (handleGroqProxy_sent rt env request out log1 new resp Hrun Hin)
    as (Hs & hs & Hhs & ->).
  set (out := mkRequest (req_method request) (outbound_url request) hs
                (req_body request)).
  assert (proxy_sendable out env = true) as Hs' by exact Hs.
  destruct (handleGroqProxy_outcome rt env out log2)
    as (resp' & new' & Hrun' & Hcase).
  rewrite Hs' in Hcase. destruct Hcase as (hs' & tail & Hhs' & -> & Htail).
  exists resp', tail. split; [|done].
  rewrite Hrun'. repeat f_equal.
  rewrite outbound_headers_outcome in Hhs, Hhs'.
  destruct (credential_usable env); [|discriminate Hhs].
  injection Hhs as Hhs. injection Hhs' as Hhs'. rewrite <- Hhs'.
  change (req_headers out) with hs. rewrite <- Hhs.
  destruct (GROQ_API_KEY env) as [key|]; [destruct (string_truthy key)|];
    apply map_eq; intros k; rewrite !lookup_insert;
    by repeat case_decide.
Qed.

Lemma proxy_rewrite_is_idempotent_witness :
  ∃ resp' tail,
    handleGroqProxy sample_rt
      (mkRequest "POST"
         (mkURL "https:" EmptyString EmptyString "api.groq.com" EmptyString
            "/openai/v1/models" EmptyString EmptyString)
         (Headers_store "authorization" "Bearer gsk_live"
            (Headers_store "host" "api.groq.com" ∅))
         None)
      (env_with_key "gsk_live") []
    = (Return resp',
       ([] ++ EvFetch
                (mkRequest "POST"
                   (mkURL "https:" EmptyString EmptyString "api.groq.com"
                      EmptyString "/openai/v1/models" EmptyString EmptyString)
                   (Headers_store "authorization" "Bearer gsk_live"
                      (Headers_store "host" "api.groq.com" ∅))
                   None)
           :: tail)%list)
    ∧ ∀ r, EvFetch r ∉ tail.
Proof.
  apply (proxy_rewrite_is_idempotent sample_rt (env_with_key "gsk_live")
           (sample_request "POST" "/openai/v1/models") _ [] []
           [EvFetch
              (mkRequest "POST"
                 (mkURL "https:" EmptyString EmptyString "api.groq.com"
                    EmptyString "/openai/v1/models" EmptyString EmptyString)
                 (Headers_store "authorization" "Bearer gsk_live"
                    (Headers_store "host" "api.groq.com" ∅))
                 None)]
           (Return upstream_reply)).
  - vm_compute. reflexivity.
  - apply list_elem_of_here.
Defined.
